(** * Tracing facade for pgx v5 (contrib/jackc/pgx.v5)

    A shallow embedding of [pool.go] and [tx.go]: the traced pool and the
    traced transaction, the SQL comment injection that precedes every
    SQL-bearing call and the span emitter [tryTrace] that follows it.

    The facade talks to four collaborators: the wrapped pgx pool and
    transaction, the tracer, the execution tracer of the Go runtime and the
    logger.  Every interaction is recorded, in program order, in a list of
    events, and the statements below are about that list and about what each
    method returns. *)

From Stdlib Require Import ZArith String List.
From Stdlib Require Import Floats.SpecFloat.
From stdpp Require Import base option list strings pretty gmap fin_maps.

Open Scope string_scope.
Open Scope list_scope.
Open Scope Z_scope.

(** ** Values shared by the packages *)

(** Go's [error] interface; a nil error is [None] of [option error]. *)
Inductive error := errorString (msg : string).

(** [time.Time], as an instant on a discrete clock. *)
Definition Time := Z.

(** [float64]: the IEEE 754 datum, of which the code only asks whether it is
    a NaN. *)
Definition float64 := spec_float.

(** [math.IsNaN]. *)
Definition IsNaN (f : float64) : bool :=
  match f with S754_nan => true | _ => false end.

(** A tag value, Go's [interface{}] restricted to the dynamic types the
    package stores in a span. *)
Inductive TagValue :=
| VString (s : string)
| VBool (b : bool)
| VFloat (f : float64)
| VError (e : error).

(** Modelled from the spec: package [ddtrace/ext] is not under src/.  The
    spec names these tags by their role only (resource name, component
    identifier, client-role marker, database-system marker, error); the keys
    are the ones the tracer's interface gives them. *)
Module ext.
Definition ServiceName : string := "service.name".
Definition SpanType : string := "span.type".
Definition ResourceName : string := "resource.name".
Definition Component : string := "component".
Definition SpanKind : string := "span.kind".
Definition SpanKindClient : string := "client".
Definition DBSystem : string := "db.system".
Definition EventSampleRate : string := "_dd1.sr.eausr".
Definition Error : string := "error".
Definition SpanTypeSQL : string := "sql".
End ext.

(** [ddtrace.SpanContext] of a span that is already active. *)
Record SpanContext := {
  TraceID : Z;
  ParentID : Z;
  Sampled : bool
}.

(** A span found in a context by [tracer.SpanFromContext]. *)
Record ActiveSpan := { span_Context : SpanContext }.

(** [context.Context], as the values the package and its collaborators keep
    in it: the active span, the tags stored under [spanTagsKey], the
    execution-trace task and the mark left by [internal.WithExecutionTraced]. *)
Record Ctx := {
  ctx_span : option ActiveSpan;
  ctx_spanTags : option (gmap string string);
  ctx_task : option string;
  ctx_executionTraced : bool
}.

(** [context.WithValue(ctx, spanTagsKey, tags)]. *)
Definition WithSpanTags (ctx : Ctx) (tags : gmap string string) : Ctx :=
  {| ctx_span := ctx_span ctx;
     ctx_spanTags := Some tags;
     ctx_task := ctx_task ctx;
     ctx_executionTraced := ctx_executionTraced ctx |}.

(** What [trace.NewTask] followed by [internal.WithExecutionTraced] leaves in
    the context. *)
Definition WithTask (ctx : Ctx) (name : string) : Ctx :=
  {| ctx_span := ctx_span ctx;
     ctx_spanTags := ctx_spanTags ctx;
     ctx_task := Some name;
     ctx_executionTraced := true |}.

(** ** The tracer *)

(** Modelled from the spec: package [ddtrace/tracer] is not under src/.  The
    spec gives its interface: start-span options are applied in the order
    they are passed, a later tag replaces an earlier one with the same key,
    [SetTag] on a started span does the same, and [Finish] closes the span.
    The propagation mode is one of disabled, service-only and full. *)
Module tracer.

Inductive DBMPropagationMode :=
| DBMPropagationModeDisabled
| DBMPropagationModeService
| DBMPropagationModeFull.

#[global] Instance DBMPropagationMode_eq_dec : EqDecision DBMPropagationMode.
Proof. solve_decision. Defined.

(** How much of the trace context a mode lets into the SQL text. *)
Definition strength (m : DBMPropagationMode) : nat :=
  match m with
  | DBMPropagationModeDisabled => 0%nat
  | DBMPropagationModeService => 1%nat
  | DBMPropagationModeFull => 2%nat
  end.

Inductive StartSpanOption :=
| Tag (k : string) (v : TagValue)
| StartTime (t : Time)
| WithSpanID (id : Z).

Definition ServiceName (name : string) : StartSpanOption :=
  Tag ext.ServiceName (VString name).

Definition SpanType (name : string) : StartSpanOption :=
  Tag ext.SpanType (VString name).

Record StartSpanConfig := {
  cfg_Tags : gmap string TagValue;
  cfg_StartTime : option Time;
  cfg_SpanID : option Z
}.

Definition emptyConfig : StartSpanConfig :=
  {| cfg_Tags := ∅; cfg_StartTime := None; cfg_SpanID := None |}.

Definition applyOption (c : StartSpanConfig) (o : StartSpanOption) : StartSpanConfig :=
  match o with
  | Tag k v =>
      {| cfg_Tags := <[k:=v]> (cfg_Tags c);
         cfg_StartTime := cfg_StartTime c;
         cfg_SpanID := cfg_SpanID c |}
  | StartTime t =>
      {| cfg_Tags := cfg_Tags c;
         cfg_StartTime := Some t;
         cfg_SpanID := cfg_SpanID c |}
  | WithSpanID id =>
      {| cfg_Tags := cfg_Tags c;
         cfg_StartTime := cfg_StartTime c;
         cfg_SpanID := Some id |}
  end.

Record Span := {
  Name : string;
  Parent : option SpanContext;
  Start : option Time;
  SpanID : option Z;
  Tags : gmap string TagValue;
  Finished : bool
}.

Definition SpanFromContext (ctx : Ctx) : option ActiveSpan := ctx_span ctx.

Definition StartSpanFromContext (ctx : Ctx) (operationName : string)
    (opts : list StartSpanOption) : Span :=
  let c := foldl applyOption emptyConfig opts in
  {| Name := operationName;
     Parent := span_Context <$> SpanFromContext ctx;
     Start := cfg_StartTime c;
     SpanID := cfg_SpanID c;
     Tags := cfg_Tags c;
     Finished := false |}.

Definition SetTag (s : Span) (k : string) (v : TagValue) : Span :=
  {| Name := Name s;
     Parent := Parent s;
     Start := Start s;
     SpanID := SpanID s;
     Tags := <[k:=v]> (Tags s);
     Finished := Finished s |}.

Definition Finish (s : Span) : Span :=
  {| Name := Name s;
     Parent := Parent s;
     Start := Start s;
     SpanID := SpanID s;
     Tags := Tags s;
     Finished := true |}.

(** [tracer.SQLCommentCarrier]: the fields the package writes and reads. *)
Record SQLCommentCarrier := {
  carrier_Query : string;
  carrier_Mode : DBMPropagationMode;
  carrier_DBServiceName : string;
  carrier_SpanID : Z
}.

End tracer.

Export tracer.

(** ** pool.go: constants and configuration *)

Definition componentName : string := "jackc/pgx.v5".

(** [type QueryType string]. *)
Definition QueryType := string.

Definition QueryTypeConnect : QueryType := "Connect".
Definition QueryTypeQuery : QueryType := "Query".
Definition QueryTypePing : QueryType := "Ping".
Definition QueryTypePrepare : QueryType := "Prepare".
Definition QueryTypeExec : QueryType := "Exec".
Definition QueryTypeBegin : QueryType := "Begin".
Definition QueryTypeClose : QueryType := "Close".
Definition QueryTypeCommit : QueryType := "Commit".
Definition QueryTypeRollback : QueryType := "Rollback".
Definition QueryTypeCopyFrom : QueryType := "CopyFrom".

Definition keyDBMTraceInjected : string := "_dd.dbm_trace_injected".

(** Modelled from the spec: the struct [config] is declared in a file that is
    not under src/.  The fields are the ones [pool.go] and [tx.go] read; a Go
    map or function value that may be nil is an [option]. *)
Record config := {
  serviceName : string;
  spanName : string;
  analyticsRate : float64;
  ignoreQueryTypes : option (gset QueryType);
  childSpansOnly : bool;
  errCheck : option (error → bool);
  tags : option (gmap string TagValue);
  dbmPropagationMode : DBMPropagationMode
}.

(** [traceParams]; ranging over a nil [meta] ranges over the empty map. *)
Record traceParams := {
  cfg : config;
  meta : gmap string string
}.

(** [for k, v := range m { span.SetTag(k, v) }].  Go leaves the order of the
    iteration open; the keys of a map are distinct, so every order sets the
    same tags ([setTags_any_order] below). *)
Definition setTags (s : Span) (kvs : list (string * string)) : Span :=
  foldl (λ s kv, SetTag s kv.1 (VString kv.2)) s kvs.

Definition withDBMTraceInjectedTag (mode : DBMPropagationMode) : list StartSpanOption :=
  if decide (mode = DBMPropagationModeFull)
  then [Tag keyDBMTraceInjected (VBool true)]
  else [].

(** ** The facade and its collaborators *)

(** How a call ends: it returns, or it panics and the panic travels up the
    stack. *)
Inductive Outcome (A : Type) :=
| Return (a : A)
| Panic.
Arguments Return {A} a.
Arguments Panic {A}.

(** The world outside the facade.  [Env] holds the database session, the
    clock, the source of span identifiers and the switch of the execution
    tracer; [Arg] to [CopySrc] are values of pgx that the facade only hands
    through.  [time_Now] is [time.Now()], [trace_IsEnabled] is
    [trace.IsEnabled()] of package runtime/trace, [Sanitize] is
    [pgx.Identifier.Sanitize], and [Inject] is the method of
    [tracer.SQLCommentCarrier] that rewrites the carrier in place and may
    fail; it belongs to the tracer and is not under src/. *)
Class World := {
  Env : Type;
  Arg : Type;
  CommandTag : Type;
  Rows : Type;
  Row : Type;
  Stmt : Type;
  TxOptions : Type;
  CopySrc : Type;
  time_Now : Env → Time;
  trace_IsEnabled : Env → bool;
  Inject : option SpanContext → SQLCommentCarrier → Env →
           (SQLCommentCarrier * option error) * Env;
  Sanitize : list string → string
}.

Section Facade.

Context `{W : World}.

(** [pgx.Tx], the interface the traced transaction embeds.  A nil interface
    value is the record whose methods all panic. *)
Record pgxTx := {
  Tx_Commit : Ctx → Env → Outcome (option error) * Env;
  Tx_Rollback : Ctx → Env → Outcome (option error) * Env;
  Tx_Prepare : Ctx → string → string → Env → Outcome (Stmt * option error) * Env;
  Tx_Exec : Ctx → string → list Arg → Env → Outcome (CommandTag * option error) * Env;
  Tx_Query : Ctx → string → list Arg → Env → Outcome (Rows * option error) * Env;
  Tx_QueryRow : Ctx → string → list Arg → Env → Outcome Row * Env;
  Tx_CopyFrom : Ctx → list string → list string → CopySrc → Env →
                Outcome (Z * option error) * Env
}.

(** [*pgxpool.Pool], of which the facade overrides [BeginTx]. *)
Record pgxpool_Pool := {
  Pool_BeginTx : Ctx → TxOptions → Env → Outcome (pgxTx * option error) * Env
}.

(** A call the facade delegates, with the arguments it passes on. *)
Inductive Call :=
| CallBeginTx (ctx : Ctx) (txOptions : TxOptions)
| CallCommit (ctx : Ctx)
| CallRollback (ctx : Ctx)
| CallPrepare (ctx : Ctx) (name sql : string)
| CallExec (ctx : Ctx) (sql : string) (args : list Arg)
| CallQuery (ctx : Ctx) (sql : string) (args : list Arg)
| CallQueryRow (ctx : Ctx) (sql : string) (args : list Arg)
| CallCopyFrom (ctx : Ctx) (tableName columnNames : list string) (rowSrc : CopySrc).

(** What a delegated call returned. *)
Inductive Returned :=
| RetBeginTx (tx : pgxTx) (err : option error)
| RetCommit (err : option error)
| RetRollback (err : option error)
| RetPrepare (stmt : Stmt) (err : option error)
| RetExec (r : CommandTag) (err : option error)
| RetQuery (r : Rows) (err : option error)
| RetQueryRow (r : Row)
| RetCopyFrom (r : Z) (err : option error).

(** The error of a delegated call; [QueryRow] has none. *)
Definition returned_err (r : Returned) : option error :=
  match r with
  | RetBeginTx _ err | RetCommit err | RetRollback err | RetPrepare _ err
  | RetExec _ err | RetQuery _ err | RetCopyFrom _ err => err
  | RetQueryRow _ => None
  end.

(** What passes between the facade and its collaborators, in program
    order: what the facade asks of them, and what a delegated call returned. *)
Inductive Event :=
| EvInject (carrier : SQLCommentCarrier) (spanCtx : option SpanContext)
| EvWarn (format : string) (err : error)
| EvTaskStart (name : string)
| EvTaskEnd (name : string)
| EvCall (c : Call)
| EvReturn (r : Returned)
| EvSpan (s : Span).

(** *** The monad of the facade: environment, events, panics *)

Record Run (A : Type) := mkRun {
  result : Outcome A;
  final : Env;
  trace : list Event
}.
Arguments mkRun {A} result final trace.
Arguments result {A} r.
Arguments final {A} r.
Arguments trace {A} r.

Definition M (A : Type) : Type := Env → Run A.

Definition ret {A} (a : A) : M A := λ e, mkRun (Return a) e [].

Definition bind {A B} (m : M A) (k : A → M B) : M B := λ e,
  match m e with
  | mkRun (Return a) e1 evs1 =>
      match k a e1 with
      | mkRun o e2 evs2 => mkRun o e2 (evs1 ++ evs2)
      end
  | mkRun Panic e1 evs1 => mkRun Panic e1 evs1
  end.

#[local] Instance M_ret : MRet M := @ret.
#[local] Instance M_bind : MBind M := λ A B k m, bind m k.

(** Record one event. *)
Definition emit (ev : Event) : M unit := λ e, mkRun (Return tt) e [ev].

(** Read the environment. *)
Definition ask {A} (f : Env → A) : M A := λ e, mkRun (Return (f e)) e [].

(** [defer d(); body]: [d] runs when the body is left, by a return or by a
    panic, and the way the body was left stands. *)
Definition defer {A} (d : M unit) (body : M A) : M A := λ e,
  match body e with
  | mkRun o e1 evs1 =>
      match d e1 with
      | mkRun _ e2 evs2 => mkRun o e2 (evs1 ++ evs2)
      end
  end.

(** A delegated call: the invocation is recorded, then what came back. *)
Definition delegate {A} (c : Call) (f : Env → Outcome A * Env) (ev : A → Returned) : M A :=
  λ e,
    let '(o, e') := f e in
    match o with
    | Return a => mkRun (Return a) e' [EvCall c; EvReturn (ev a)]
    | Panic => mkRun Panic e' [EvCall c]
    end.

(** *** tx.go: the execution-trace task *)

Definition noopTaskEnd : M unit := ret tt.

Definition startTraceTask (ctx : Ctx) (name : string) : M (Ctx * M unit) :=
  enabled ← ask trace_IsEnabled;
  if negb enabled then mret (ctx, noopTaskEnd)
  else
    emit (EvTaskStart name);;
    mret (WithTask ctx name, emit (EvTaskEnd name)).

(** *** pool.go: comment injection and the span emitter *)

Definition injectComments (tp : traceParams) (ctx : Ctx) (query : string)
    (mode : DBMPropagationMode) : M (string * Z) :=
  let spanCtx := span_Context <$> SpanFromContext ctx in
  let carrier := {| carrier_Query := query;
                    carrier_Mode := mode;
                    carrier_DBServiceName := serviceName (cfg tp);
                    carrier_SpanID := 0 |} in
  emit (EvInject carrier spanCtx);;
  '(carrier, err) ← (λ e, let '(r, e') := Inject spanCtx carrier e in
                           mkRun (Return r) e' []);
  match err with
  | Some err =>
      emit (EvWarn "contrib/jackc/pgx.v5: failed to inject query comments: %v" err)
  | None => mret tt
  end;;
  mret (carrier_Query carrier, carrier_SpanID carrier).

Definition tryTrace (tp : traceParams) (ctx : Ctx) (qtype : QueryType)
    (query : string) (startTime : Time) (err : option error)
    (spanOpts : list StartSpanOption) : M unit :=
  if match ignoreQueryTypes (cfg tp) with
     | Some ignored => bool_decide (qtype ∈ ignored)
     | None => false
     end
  then mret tt
  else if childSpansOnly (cfg tp) && negb (bool_decide (is_Some (SpanFromContext ctx)))
  then mret tt
  else
    let opts := spanOpts ++
      [ ServiceName (serviceName (cfg tp));
        SpanType ext.SpanTypeSQL;
        StartTime startTime;
        Tag ext.Component (VString "pgx/v5");
        Tag ext.SpanKind (VString ext.SpanKindClient);
        Tag ext.DBSystem (VString "postgres") ] in
    let opts :=
      match tags (cfg tp) with
      | Some tags => opts ++ ((λ kv, Tag kv.1 kv.2) <$> map_to_list tags)
      | None => opts
      end in
    let opts :=
      if negb (IsNaN (analyticsRate (cfg tp)))
      then opts ++ [Tag ext.EventSampleRate (VFloat (analyticsRate (cfg tp)))]
      else opts in
    let span := StartSpanFromContext ctx (spanName (cfg tp)) opts in
    let resource := if bool_decide (query ≠ EmptyString) then query else qtype in
    let span := SetTag span "sql.query_type" (VString qtype) in
    let span := SetTag span ext.ResourceName (VString resource) in
    let span := setTags span (map_to_list (meta tp)) in
    let span :=
      match ctx_spanTags ctx with
      | Some meta => setTags span (map_to_list meta)
      | None => span
      end in
    let span :=
      match err with
      | Some err =>
          if match errCheck (cfg tp) with
             | None => true
             | Some errCheck => errCheck err
             end
          then SetTag span ext.Error (VError err)
          else span
      | None => span
      end in
    emit (EvSpan (Finish span)).

(** *** tx.go: the traced transaction *)

Record tracedTx := {
  Tx : pgxTx;
  tx_traceParams : traceParams
}.

Definition Commit (t : tracedTx) (ctx : Ctx) : M (option error) :=
  '(ctx, end_) ← startTraceTask ctx QueryTypeCommit;
  defer end_ (
    start ← ask time_Now;
    err ← delegate (CallCommit ctx) (Tx_Commit (Tx t) ctx) RetCommit;
    tryTrace (tx_traceParams t) ctx QueryTypeCommit EmptyString start err [];;
    mret err).

Definition Rollback (t : tracedTx) (ctx : Ctx) : M (option error) :=
  '(ctx, end_) ← startTraceTask ctx QueryTypeRollback;
  defer end_ (
    start ← ask time_Now;
    err ← delegate (CallRollback ctx) (Tx_Rollback (Tx t) ctx) RetRollback;
    tryTrace (tx_traceParams t) ctx QueryTypeRollback EmptyString start err [];;
    mret err).

Definition Prepare (t : tracedTx) (ctx : Ctx) (name query : string)
    : M (Stmt * option error) :=
  start ← ask time_Now;
  let mode := dbmPropagationMode (cfg (tx_traceParams t)) in
  let mode :=
    if decide (mode = DBMPropagationModeFull)
    then DBMPropagationModeService
    else mode in
  '(cquery, spanID) ← injectComments (tx_traceParams t) ctx query mode;
  '(ctx, end_) ← startTraceTask ctx QueryTypePrepare;
  defer end_ (
    '(stmt, err) ← delegate (CallPrepare ctx name cquery)
                      (Tx_Prepare (Tx t) ctx name cquery) (λ r, RetPrepare r.1 r.2);
    tryTrace (tx_traceParams t) ctx QueryTypePrepare query start err
      (withDBMTraceInjectedTag mode ++ [WithSpanID spanID]);;
    mret (stmt, err)).

Definition Exec (t : tracedTx) (ctx : Ctx) (query : string) (args : list Arg)
    : M (CommandTag * option error) :=
  start ← ask time_Now;
  '(cquery, spanID) ← injectComments (tx_traceParams t) ctx query
                        (dbmPropagationMode (cfg (tx_traceParams t)));
  '(ctx, end_) ← startTraceTask ctx QueryTypeExec;
  defer end_ (
    '(r, err) ← delegate (CallExec ctx cquery args)
                   (Tx_Exec (Tx t) ctx cquery args) (λ r, RetExec r.1 r.2);
    tryTrace (tx_traceParams t) ctx QueryTypeExec query start err
      (withDBMTraceInjectedTag (dbmPropagationMode (cfg (tx_traceParams t)))
         ++ [WithSpanID spanID]);;
    mret (r, err)).

Definition Query (t : tracedTx) (ctx : Ctx) (query : string) (args : list Arg)
    : M (Rows * option error) :=
  start ← ask time_Now;
  '(cquery, spanID) ← injectComments (tx_traceParams t) ctx query
                        (dbmPropagationMode (cfg (tx_traceParams t)));
  '(ctx, end_) ← startTraceTask ctx QueryTypeQuery;
  defer end_ (
    '(r, err) ← delegate (CallQuery ctx cquery args)
                   (Tx_Query (Tx t) ctx cquery args) (λ r, RetQuery r.1 r.2);
    tryTrace (tx_traceParams t) ctx QueryTypeQuery query start err
      (withDBMTraceInjectedTag (dbmPropagationMode (cfg (tx_traceParams t)))
         ++ [WithSpanID spanID]);;
    mret (r, err)).

Definition QueryRow (t : tracedTx) (ctx : Ctx) (query : string) (args : list Arg)
    : M Row :=
  start ← ask time_Now;
  '(cquery, spanID) ← injectComments (tx_traceParams t) ctx query
                        (dbmPropagationMode (cfg (tx_traceParams t)));
  '(ctx, end_) ← startTraceTask ctx QueryTypeQuery;
  defer end_ (
    r ← delegate (CallQueryRow ctx cquery args)
           (Tx_QueryRow (Tx t) ctx cquery args) RetQueryRow;
    tryTrace (tx_traceParams t) ctx QueryTypeQuery query start None
      (withDBMTraceInjectedTag (dbmPropagationMode (cfg (tx_traceParams t)))
         ++ [WithSpanID spanID]);;
    mret r).

Definition CopyFrom (t : tracedTx) (ctx : Ctx) (tableName columnNames : list string)
    (rowSrc : CopySrc) : M (Z * option error) :=
  start ← ask time_Now;
  '(ctx, end_) ← startTraceTask ctx QueryTypeCopyFrom;
  defer end_ (
    '(r, err) ← delegate (CallCopyFrom ctx tableName columnNames rowSrc)
                   (Tx_CopyFrom (Tx t) ctx tableName columnNames rowSrc)
                   (λ r, RetCopyFrom r.1 r.2);
    tryTrace (tx_traceParams t) ctx QueryTypeCopyFrom
      ("copy_from " +:+ Sanitize tableName) start err [];;
    mret (r, err)).

(** *** pool.go: the traced pool *)

Record LooselyTracedPool := {
  Pool : pgxpool_Pool;
  pool_traceParams : traceParams
}.

Definition WrappedPool (tp : LooselyTracedPool) : pgxpool_Pool := Pool tp.

Definition BeginTx (tp : LooselyTracedPool) (ctx : Ctx) (txOptions : TxOptions)
    : M (option tracedTx * option error) :=
  start ← ask time_Now;
  '(ctx, end_) ← startTraceTask ctx QueryTypeBegin;
  defer end_ (
    '(tx, err) ← delegate (CallBeginTx ctx txOptions)
                    (Pool_BeginTx (Pool tp) ctx txOptions) (λ r, RetBeginTx r.1 r.2);
    tryTrace (pool_traceParams tp) ctx QueryTypeBegin EmptyString start err [];;
    match err with
    | Some err => mret (None, Some err)
    | None => mret (Some {| Tx := tx; tx_traceParams := pool_traceParams tp |}, None)
    end).

(** ** The traced operations as one family *)

(** A call of one of the eight traced methods, with its receiver and its
    arguments. *)
Inductive Op :=
| OpBeginTx (p : LooselyTracedPool) (txOptions : TxOptions)
| OpCommit (t : tracedTx)
| OpRollback (t : tracedTx)
| OpPrepare (t : tracedTx) (name query : string)
| OpExec (t : tracedTx) (query : string) (args : list Arg)
| OpQuery (t : tracedTx) (query : string) (args : list Arg)
| OpQueryRow (t : tracedTx) (query : string) (args : list Arg)
| OpCopyFrom (t : tracedTx) (tableName columnNames : list string) (rowSrc : CopySrc).

(** What a traced method hands back to its caller. *)
Inductive Answer :=
| AnsBeginTx (tx : option tracedTx) (err : option error)
| AnsCommit (err : option error)
| AnsRollback (err : option error)
| AnsPrepare (stmt : Stmt) (err : option error)
| AnsExec (r : CommandTag) (err : option error)
| AnsQuery (r : Rows) (err : option error)
| AnsQueryRow (r : Row)
| AnsCopyFrom (r : Z) (err : option error).

(** The error among the values a method hands back; [QueryRow] has none. *)
Definition answer_err (a : Answer) : option error :=
  match a with
  | AnsBeginTx _ err | AnsCommit err | AnsRollback err | AnsPrepare _ err
  | AnsExec _ err | AnsQuery _ err | AnsCopyFrom _ err => err
  | AnsQueryRow _ => None
  end.

Definition answering {A} (f : A → Answer) (m : M A) : M Answer := λ e,
  match m e with
  | mkRun (Return a) e1 evs => mkRun (Return (f a)) e1 evs
  | mkRun Panic e1 evs => mkRun Panic e1 evs
  end.

Definition runOp (op : Op) (ctx : Ctx) : M Answer :=
  match op with
  | OpBeginTx p txOptions =>
      answering (λ r, AnsBeginTx r.1 r.2) (BeginTx p ctx txOptions)
  | OpCommit t => answering AnsCommit (Commit t ctx)
  | OpRollback t => answering AnsRollback (Rollback t ctx)
  | OpPrepare t name query =>
      answering (λ r, AnsPrepare r.1 r.2) (Prepare t ctx name query)
  | OpExec t query args => answering (λ r, AnsExec r.1 r.2) (Exec t ctx query args)
  | OpQuery t query args => answering (λ r, AnsQuery r.1 r.2) (Query t ctx query args)
  | OpQueryRow t query args => answering AnsQueryRow (QueryRow t ctx query args)
  | OpCopyFrom t tableName columnNames rowSrc =>
      answering (λ r, AnsCopyFrom r.1 r.2) (CopyFrom t ctx tableName columnNames rowSrc)
  end.

(** The four methods that carry SQL text. *)
Inductive SqlOp :=
| SqlPrepare (t : tracedTx) (name query : string)
| SqlExec (t : tracedTx) (query : string) (args : list Arg)
| SqlQuery (t : tracedTx) (query : string) (args : list Arg)
| SqlQueryRow (t : tracedTx) (query : string) (args : list Arg).

Definition sqlOp (s : SqlOp) : Op :=
  match s with
  | SqlPrepare t name query => OpPrepare t name query
  | SqlExec t query args => OpExec t query args
  | SqlQuery t query args => OpQuery t query args
  | SqlQueryRow t query args => OpQueryRow t query args
  end.

(** The SQL text the caller supplied. *)
Definition sqlText (s : SqlOp) : string :=
  match s with
  | SqlPrepare _ _ query | SqlExec _ query _ | SqlQuery _ query _
  | SqlQueryRow _ query _ => query
  end.

(** The propagation mode a method hands to the injector. *)
Definition sqlMode (s : SqlOp) : DBMPropagationMode :=
  match s with
  | SqlPrepare t _ _ =>
      let mode := dbmPropagationMode (cfg (tx_traceParams t)) in
      if decide (mode = DBMPropagationModeFull)
      then DBMPropagationModeService else mode
  | SqlExec t _ _ | SqlQuery t _ _ | SqlQueryRow t _ _ =>
      dbmPropagationMode (cfg (tx_traceParams t))
  end.

(** *** What each method passes to the shared steps *)

Definition opParams (op : Op) : traceParams :=
  match op with
  | OpBeginTx p _ => pool_traceParams p
  | OpCommit t | OpRollback t | OpPrepare t _ _ | OpExec t _ _
  | OpQuery t _ _ | OpQueryRow t _ _ | OpCopyFrom t _ _ _ => tx_traceParams t
  end.

(** The name of the execution-trace task, which is also the operation kind
    handed to the emitter. *)
Definition opType (op : Op) : QueryType :=
  match op with
  | OpBeginTx _ _ => QueryTypeBegin
  | OpCommit _ => QueryTypeCommit
  | OpRollback _ => QueryTypeRollback
  | OpPrepare _ _ _ => QueryTypePrepare
  | OpExec _ _ _ => QueryTypeExec
  | OpQuery _ _ _ => QueryTypeQuery
  | OpQueryRow _ _ _ => QueryTypeQuery
  | OpCopyFrom _ _ _ _ => QueryTypeCopyFrom
  end.

(** The SQL text handed to the emitter. *)
Definition opQuery (op : Op) : string :=
  match op with
  | OpBeginTx _ _ | OpCommit _ | OpRollback _ => EmptyString
  | OpPrepare _ _ query | OpExec _ query _ | OpQuery _ query _
  | OpQueryRow _ query _ => query
  | OpCopyFrom _ tableName _ _ => "copy_from " +:+ Sanitize tableName
  end.

(** The propagation mode handed to the injector and to
    [withDBMTraceInjectedTag]; [None] for a method that injects nothing. *)
Definition opMode (op : Op) : option DBMPropagationMode :=
  match op with
  | OpBeginTx _ _ | OpCommit _ | OpRollback _ | OpCopyFrom _ _ _ _ => None
  | OpPrepare t _ _ =>
      let mode := dbmPropagationMode (cfg (tx_traceParams t)) in
      Some (if decide (mode = DBMPropagationModeFull)
            then DBMPropagationModeService else mode)
  | OpExec t _ _ | OpQuery t _ _ | OpQueryRow t _ _ =>
      Some (dbmPropagationMode (cfg (tx_traceParams t)))
  end.

(** The delegated call, given the context and the SQL text it is passed. *)
Definition opCall (op : Op) (ctx : Ctx) (sql : string) : Call :=
  match op with
  | OpBeginTx _ txOptions => CallBeginTx ctx txOptions
  | OpCommit _ => CallCommit ctx
  | OpRollback _ => CallRollback ctx
  | OpPrepare _ name _ => CallPrepare ctx name sql
  | OpExec _ _ args => CallExec ctx sql args
  | OpQuery _ _ args => CallQuery ctx sql args
  | OpQueryRow _ _ args => CallQueryRow ctx sql args
  | OpCopyFrom _ tableName columnNames rowSrc =>
      CallCopyFrom ctx tableName columnNames rowSrc
  end.

Definition returning {A} (f : A → Returned) (r : Outcome A * Env) : Outcome Returned * Env :=
  (match r.1 with Return a => Return (f a) | Panic => Panic end, r.2).

(** What the wrapped pool or transaction does with that call. *)
Definition opDelegate (op : Op) (ctx : Ctx) (sql : string) (e : Env)
    : Outcome Returned * Env :=
  match op with
  | OpBeginTx p txOptions =>
      returning (λ r, RetBeginTx r.1 r.2) (Pool_BeginTx (Pool p) ctx txOptions e)
  | OpCommit t => returning RetCommit (Tx_Commit (Tx t) ctx e)
  | OpRollback t => returning RetRollback (Tx_Rollback (Tx t) ctx e)
  | OpPrepare t name _ =>
      returning (λ r, RetPrepare r.1 r.2) (Tx_Prepare (Tx t) ctx name sql e)
  | OpExec t _ args => returning (λ r, RetExec r.1 r.2) (Tx_Exec (Tx t) ctx sql args e)
  | OpQuery t _ args => returning (λ r, RetQuery r.1 r.2) (Tx_Query (Tx t) ctx sql args e)
  | OpQueryRow t _ args => returning RetQueryRow (Tx_QueryRow (Tx t) ctx sql args e)
  | OpCopyFrom t tableName columnNames rowSrc =>
      returning (λ r, RetCopyFrom r.1 r.2)
                (Tx_CopyFrom (Tx t) ctx tableName columnNames rowSrc e)
  end.

(** What the facade hands back for what the delegated call returned: the
    same values, and for [BeginTx] the transaction wrapped, or nil next to an
    error. *)
Definition answerOf (tp : traceParams) (r : Returned) : Answer :=
  match r with
  | RetBeginTx tx err =>
      AnsBeginTx (match err with
                  | Some _ => None
                  | None => Some {| Tx := tx; tx_traceParams := tp |}
                  end) err
  | RetCommit err => AnsCommit err
  | RetRollback err => AnsRollback err
  | RetPrepare stmt err => AnsPrepare stmt err
  | RetExec r err => AnsExec r err
  | RetQuery r err => AnsQuery r err
  | RetQueryRow r => AnsQueryRow r
  | RetCopyFrom r err => AnsCopyFrom r err
  end.

(** *** The injection step *)

Definition spanCtxOf (ctx : Ctx) : option SpanContext :=
  span_Context <$> SpanFromContext ctx.

(** The carrier as [injectComments] builds it. *)
Definition carrierFor (tp : traceParams) (query : string) (mode : DBMPropagationMode)
    : SQLCommentCarrier :=
  {| carrier_Query := query;
     carrier_Mode := mode;
     carrier_DBServiceName := serviceName (cfg tp);
     carrier_SpanID := 0 |}.

(** The carrier after [Inject], with the error of [Inject]. *)
Definition injected (op : Op) (ctx : Ctx) (e : Env)
    : option (SQLCommentCarrier * option error) :=
  mode ← opMode op;
  Some (Inject (spanCtxOf ctx) (carrierFor (opParams op) (opQuery op) mode) e).1.

Definition envAfterInject (op : Op) (ctx : Ctx) (e : Env) : Env :=
  match opMode op with
  | Some mode => (Inject (spanCtxOf ctx) (carrierFor (opParams op) (opQuery op) mode) e).2
  | None => e
  end.

(** The SQL text that reaches the wrapped transaction. *)
Definition sqlSent (op : Op) (ctx : Ctx) (e : Env) : string :=
  match injected op ctx e with
  | Some (carrier, _) => carrier_Query carrier
  | None => opQuery op
  end.

(** The options a method adds to the emitter's own. *)
Definition extraOpts (op : Op) (ctx : Ctx) (e : Env) : list StartSpanOption :=
  match opMode op, injected op ctx e with
  | Some mode, Some (carrier, _) =>
      withDBMTraceInjectedTag mode ++ [WithSpanID (carrier_SpanID carrier)]
  | _, _ => []
  end.

Definition injectEvents (op : Op) (ctx : Ctx) (e : Env) : list Event :=
  match opMode op, injected op ctx e with
  | Some mode, Some (_, ierr) =>
      EvInject (carrierFor (opParams op) (opQuery op) mode) (spanCtxOf ctx) ::
      match ierr with
      | Some err =>
          [EvWarn "contrib/jackc/pgx.v5: failed to inject query comments: %v" err]
      | None => []
      end
  | _, _ => []
  end.

(** *** The emitter in closed form *)

(** The two suppression rules, in the order [tryTrace] tests them. *)
Definition ignoredType (tp : traceParams) (qtype : QueryType) : bool :=
  match ignoreQueryTypes (cfg tp) with
  | Some ignored => bool_decide (qtype ∈ ignored)
  | None => false
  end.

Definition orphaned (tp : traceParams) (ctx : Ctx) : bool :=
  childSpansOnly (cfg tp) && negb (bool_decide (is_Some (SpanFromContext ctx))).

Definition suppressed (tp : traceParams) (ctx : Ctx) (qtype : QueryType) : bool :=
  ignoredType tp qtype || orphaned tp ctx.

(** The error the emitter puts on the span, if any. *)
Definition reported (tp : traceParams) (err : option error) : option error :=
  match err with
  | Some err =>
      if match errCheck (cfg tp) with
         | None => true
         | Some errCheck => errCheck err
         end
      then Some err else None
  | None => None
  end.

(** The tags of a list of start-span options. *)
Definition optionTags (opts : list StartSpanOption) : gmap string TagValue :=
  cfg_Tags (foldl applyOption emptyConfig opts).

(** The identifier a list of start-span options fixes. *)
Definition optionSpanID (opts : list StartSpanOption) : option Z :=
  cfg_SpanID (foldl applyOption emptyConfig opts).

(** The tag sources of one span, each as a map. *)
Definition fixedTags (tp : traceParams) : gmap string TagValue :=
  <[ext.DBSystem := VString "postgres"]>
    (<[ext.SpanKind := VString ext.SpanKindClient]>
      (<[ext.Component := VString "pgx/v5"]>
        (<[ext.SpanType := VString ext.SpanTypeSQL]>
          (<[ext.ServiceName := VString (serviceName (cfg tp))]> ∅)))).

Definition staticTags (tp : traceParams) : gmap string TagValue :=
  default ∅ (tags (cfg tp)).

Definition analyticsTag (tp : traceParams) : gmap string TagValue :=
  if IsNaN (analyticsRate (cfg tp)) then ∅
  else {[ ext.EventSampleRate := VFloat (analyticsRate (cfg tp)) ]}.

Definition resourceOf (qtype : QueryType) (query : string) : string :=
  if bool_decide (query ≠ EmptyString) then query else qtype.

Definition emitterTags (qtype : QueryType) (query : string) : gmap string TagValue :=
  <[ext.ResourceName := VString (resourceOf qtype query)]>
    (<["sql.query_type" := VString qtype]> ∅).

Definition metaTags (tp : traceParams) : gmap string TagValue :=
  VString <$> meta tp.

Definition ambientTags (ctx : Ctx) : gmap string TagValue :=
  VString <$> default ∅ (ctx_spanTags ctx).

Definition errorTag (tp : traceParams) (err : option error) : gmap string TagValue :=
  match reported tp err with
  | Some err => {[ ext.Error := VError err ]}
  | None => ∅
  end.

(** The tags of the emitted span: the union keeps, for every key, the
    leftmost source that has it, so the sources read from the last one
    written to the first. *)
Definition mergedTags (tp : traceParams) (ctx : Ctx) (qtype : QueryType)
    (query : string) (err : option error) (spanOpts : list StartSpanOption)
    : gmap string TagValue :=
  errorTag tp err ∪ ambientTags ctx ∪ metaTags tp ∪ emitterTags qtype query
    ∪ analyticsTag tp ∪ staticTags tp ∪ fixedTags tp ∪ optionTags spanOpts.

(** The tags the user of the package supplies: ambient over per-facade
    metadata over static configuration. *)
Definition userTags (tp : traceParams) (ctx : Ctx) : gmap string TagValue :=
  ambientTags ctx ∪ metaTags tp ∪ staticTags tp.

(** The merge in the order the specification words it: static config tags,
    the analytics sample-rate tag, the caller's extra options, per-facade
    metadata, ambient tags, each overriding the ones before it. *)
Definition specMergedTags (tp : traceParams) (ctx : Ctx)
    (spanOpts : list StartSpanOption) : gmap string TagValue :=
  ambientTags ctx ∪ metaTags tp ∪ optionTags spanOpts ∪ analyticsTag tp
    ∪ staticTags tp.

Definition emittedSpan (tp : traceParams) (ctx : Ctx) (qtype : QueryType)
    (query : string) (startTime : Time) (err : option error)
    (spanOpts : list StartSpanOption) : Span :=
  {| Name := spanName (cfg tp);
     Parent := spanCtxOf ctx;
     Start := Some startTime;
     SpanID := optionSpanID spanOpts;
     Tags := mergedTags tp ctx qtype query err spanOpts;
     Finished := true |}.

Definition spanEvents (tp : traceParams) (ctx : Ctx) (qtype : QueryType)
    (query : string) (startTime : Time) (err : option error)
    (spanOpts : list StartSpanOption) : list Event :=
  if suppressed tp ctx qtype then []
  else [EvSpan (emittedSpan tp ctx qtype query startTime err spanOpts)].

(** *** The template of a traced method *)

(** The context the delegated call and the emitter see. *)
Definition taskCtx (op : Op) (ctx : Ctx) (e : Env) : Ctx :=
  if trace_IsEnabled (envAfterInject op ctx e) then WithTask ctx (opType op) else ctx.

Definition taskStartEvents (op : Op) (ctx : Ctx) (e : Env) : list Event :=
  if trace_IsEnabled (envAfterInject op ctx e) then [EvTaskStart (opType op)] else [].

Definition taskEndEvents (op : Op) (ctx : Ctx) (e : Env) : list Event :=
  if trace_IsEnabled (envAfterInject op ctx e) then [EvTaskEnd (opType op)] else [].

(** What the wrapped pool or transaction answers to the call of [op]. *)
Definition delegated (op : Op) (ctx : Ctx) (e : Env) : Outcome Returned * Env :=
  opDelegate op (taskCtx op ctx e) (sqlSent op ctx e) (envAfterInject op ctx e).

(** The run every traced method makes (spec 4.4: one fixed template):
    inject, open the task, delegate, emit, close the task. *)
Definition template (op : Op) (ctx : Ctx) (e : Env) : Run Answer :=
  let d := delegated op ctx e in
  mkRun
    (match d.1 with
     | Return r => Return (answerOf (opParams op) r)
     | Panic => Panic
     end)
    d.2
    (injectEvents op ctx e ++ taskStartEvents op ctx e
       ++ [EvCall (opCall op (taskCtx op ctx e) (sqlSent op ctx e))]
       ++ match d.1 with
          | Return r =>
              EvReturn r ::
              spanEvents (opParams op) (taskCtx op ctx e) (opType op) (opQuery op)
                (time_Now e) (returned_err r) (extraOpts op ctx e)
          | Panic => []
          end
       ++ taskEndEvents op ctx e).

(** *** Reading a list of events *)

Definition spansOf (evs : list Event) : list Span :=
  omap (λ ev, match ev with EvSpan s => Some s | _ => None end) evs.

(** The carriers handed to [Inject]. *)
Definition injectionsOf (evs : list Event) : list SQLCommentCarrier :=
  omap (λ ev, match ev with EvInject c _ => Some c | _ => None end) evs.

(** The delegated calls. *)
Definition callsOf (evs : list Event) : list Call :=
  omap (λ ev, match ev with EvCall c => Some c | _ => None end) evs.

(** What the delegated calls returned. *)
Definition returnsOf (evs : list Event) : list Returned :=
  omap (λ ev, match ev with EvReturn r => Some r | _ => None end) evs.

(** The errors logged as warnings. *)
Definition warningsOf (evs : list Event) : list error :=
  omap (λ ev, match ev with EvWarn _ err => Some err | _ => None end) evs.

Definition eventName (ev : Event) : string :=
  match ev with
  | EvInject _ _ => "inject"
  | EvWarn _ _ => "warn"
  | EvTaskStart _ => "task start"
  | EvTaskEnd _ => "task end"
  | EvCall _ => "call"
  | EvReturn _ => "return"
  | EvSpan _ => "span"
  end.

Definition isTaskEnd (ev : Event) : bool :=
  match ev with EvTaskEnd _ => true | _ => false end.

Definition isSpan (ev : Event) : bool :=
  match ev with EvSpan _ => true | _ => false end.

(** Every span of [evs] is emitted after a task has been ended: the reading
    of "the task end happens no later than the span emission". *)
Fixpoint taskEndsBeforeSpans (ended : bool) (evs : list Event) : bool :=
  match evs with
  | [] => true
  | ev :: evs =>
      (if isSpan ev then ended else true)
      && taskEndsBeforeSpans (ended || isTaskEnd ev) evs
  end.

End Facade.

Arguments mkRun {W A} result final trace.
Arguments result {W A} r.
Arguments final {W A} r.
Arguments trace {W A} r.

(** ** A sample world *)

(** The closed statements at the end of the file run the facade in this
    world: the environment is a clock, every collaborator answers at once and
    moves the clock on. *)

(** Modelled from the spec: [SQLCommentCarrier.Inject] is not under src/.
    Section 4.1 of the spec: a new span identifier is generated whatever the
    mode; mode disabled returns the SQL unmodified, service-only adds a
    comment with the service name alone, full adds the service name, the
    trace identifier, the generated span identifier and the sampling
    decision. *)
Definition sampleInject (spanCtx : option SpanContext) (c : SQLCommentCarrier) (e : Z)
    : (SQLCommentCarrier * option error) * Z :=
  let id := 7000 + e in
  let service := "dddbs='" +:+ carrier_DBServiceName c +:+ "'" in
  let comment :=
    match carrier_Mode c with
    | DBMPropagationModeDisabled => EmptyString
    | DBMPropagationModeService => "/*" +:+ service +:+ "*/ "
    | DBMPropagationModeFull =>
        "/*" +:+ service
        +:+ ",ddtid='" +:+ pretty (from_option TraceID id spanCtx)
        +:+ "',ddsid='" +:+ pretty id
        +:+ "',ddsp='" +:+ (if from_option Sampled false spanCtx then "1" else "0")
        +:+ "'*/ "
    end in
  (({| carrier_Query := comment +:+ carrier_Query c;
       carrier_Mode := carrier_Mode c;
       carrier_DBServiceName := carrier_DBServiceName c;
       carrier_SpanID := id |}, None), e + 1).

(** An injector whose carrier is in a bad state: it still draws the
    identifier, leaves the SQL alone and reports the failure. *)
Definition brokenInject (spanCtx : option SpanContext) (c : SQLCommentCarrier) (e : Z)
    : (SQLCommentCarrier * option error) * Z :=
  (({| carrier_Query := carrier_Query c;
       carrier_Mode := carrier_Mode c;
       carrier_DBServiceName := carrier_DBServiceName c;
       carrier_SpanID := 7000 + e |}, Some (errorString "malformed carrier")), e + 1).

Definition sampleSanitize (parts : list string) : string :=
  String.concat "." parts.

Definition sampleWorld : World :=
  {| Env := Z;
     Arg := string;
     CommandTag := string;
     Rows := list string;
     Row := string;
     Stmt := string;
     TxOptions := unit;
     CopySrc := list (list string);
     time_Now := λ e, e;
     trace_IsEnabled := λ _, true;
     Inject := sampleInject;
     Sanitize := sampleSanitize |}.

Definition brokenWorld : World :=
  {| Env := Z;
     Arg := string;
     CommandTag := string;
     Rows := list string;
     Row := string;
     Stmt := string;
     TxOptions := unit;
     CopySrc := list (list string);
     time_Now := λ e, e;
     trace_IsEnabled := λ _, true;
     Inject := brokenInject;
     Sanitize := sampleSanitize |}.

Definition errNoRows : error := errorString "no rows in result set".

(** A transaction whose calls succeed. *)
Definition sampleTx `{W : World} (tag : CommandTag) (rows : Rows) (row : Row)
    (stmt : Stmt) : pgxTx :=
  {| Tx_Commit := λ _ e, (Return None, e);
     Tx_Rollback := λ _ e, (Return None, e);
     Tx_Prepare := λ _ _ _ e, (Return (stmt, None), e);
     Tx_Exec := λ _ _ _ e, (Return (tag, None), e);
     Tx_Query := λ _ _ _ e, (Return (rows, None), e);
     Tx_QueryRow := λ _ _ _ e, (Return row, e);
     Tx_CopyFrom := λ _ _ _ _ e, (Return (1, None), e) |}.

(** A transaction whose calls fail with [errNoRows]. *)
Definition failingTx `{W : World} (tag : CommandTag) (rows : Rows) (row : Row)
    (stmt : Stmt) : pgxTx :=
  {| Tx_Commit := λ _ e, (Return (Some errNoRows), e);
     Tx_Rollback := λ _ e, (Return (Some errNoRows), e);
     Tx_Prepare := λ _ _ _ e, (Return (stmt, Some errNoRows), e);
     Tx_Exec := λ _ _ _ e, (Return (tag, Some errNoRows), e);
     Tx_Query := λ _ _ _ e, (Return (rows, Some errNoRows), e);
     Tx_QueryRow := λ _ _ _ e, (Return row, e);
     Tx_CopyFrom := λ _ _ _ _ e, (Return (0, Some errNoRows), e) |}.

(** A nil [pgx.Tx]: every call panics. *)
Definition nilTx `{W : World} : pgxTx :=
  {| Tx_Commit := λ _ e, (Panic, e);
     Tx_Rollback := λ _ e, (Panic, e);
     Tx_Prepare := λ _ _ _ e, (Panic, e);
     Tx_Exec := λ _ _ _ e, (Panic, e);
     Tx_Query := λ _ _ _ e, (Panic, e);
     Tx_QueryRow := λ _ _ _ e, (Panic, e);
     Tx_CopyFrom := λ _ _ _ _ e, (Panic, e) |}.

Definition sampleConfig (mode : DBMPropagationMode)
    (static : option (gmap string TagValue)) : config :=
  {| serviceName := "postgres.db";
     spanName := "pgx.query";
     analyticsRate := S754_nan;
     ignoreQueryTypes := None;
     childSpansOnly := false;
     errCheck := None;
     tags := static;
     dbmPropagationMode := mode |}.

Definition sampleParams (mode : DBMPropagationMode)
    (static : option (gmap string TagValue)) : traceParams :=
  {| cfg := sampleConfig mode static; meta := ∅ |}.

(** [context.Background()]. *)
Definition background : Ctx :=
  {| ctx_span := None;
     ctx_spanTags := None;
     ctx_task := None;
     ctx_executionTraced := false |}.

(** A context inside a trace. *)
Definition inTrace : Ctx :=
  {| ctx_span := Some {| span_Context :=
                           {| TraceID := 11; ParentID := 12; Sampled := true |} |};
     ctx_spanTags := None;
     ctx_task := None;
     ctx_executionTraced := false |}.

(** The successful transaction of the sample world, traced. *)
Definition sampleTracedTx (mode : DBMPropagationMode)
    (static : option (gmap string TagValue)) : tracedTx (W:=sampleWorld) :=
  {| Tx := sampleTx (W:=sampleWorld) "INSERT 0 1" ["row"] "row" "stmt";
     tx_traceParams := sampleParams mode static |}.

(** A transaction whose calls fail, behind a pool with the error classifier
    [check]. *)
Definition failingTracedTx (check : option (error → bool)) : tracedTx (W:=sampleWorld) :=
  {| Tx := failingTx (W:=sampleWorld) "" [] "" "";
     tx_traceParams :=
       {| cfg := {| serviceName := "postgres.db";
                    spanName := "pgx.query";
                    analyticsRate := S754_nan;
                    ignoreQueryTypes := None;
                    childSpansOnly := false;
                    errCheck := check;
                    tags := None;
                    dbmPropagationMode := DBMPropagationModeFull |};
          meta := ∅ |} |}.

(** The successful transaction behind a pool that suppresses the kinds
    [ignored] and, with [childOnly], spans outside a trace. *)
Definition filteredTracedTx (ignored : option (gset QueryType)) (childOnly : bool)
    : tracedTx (W:=sampleWorld) :=
  {| Tx := sampleTx (W:=sampleWorld) "INSERT 0 1" ["row"] "row" "stmt";
     tx_traceParams :=
       {| cfg := {| serviceName := "postgres.db";
                    spanName := "pgx.query";
                    analyticsRate := S754_nan;
                    ignoreQueryTypes := ignored;
                    childSpansOnly := childOnly;
                    errCheck := None;
                    tags := None;
                    dbmPropagationMode := DBMPropagationModeFull |};
          meta := ∅ |} |}.

(** The successful transaction in the world whose injector fails. *)
Definition brokenTracedTx : tracedTx (W:=brokenWorld) :=
  {| Tx := sampleTx (W:=brokenWorld) "INSERT 0 1" ["row"] "row" "stmt";
     tx_traceParams := sampleParams DBMPropagationModeFull None |}.

(** What the examples read off a span: its identifier, its resource name,
    the marker and the error. *)
Definition spanSummary (s : Span)
    : option Z * option TagValue * option TagValue * option TagValue :=
  (SpanID s, Tags s !! ext.ResourceName, Tags s !! keyDBMTraceInjected,
   Tags s !! ext.Error).

(** ** pgx.go: building a traced pool *)

(** What pgx.go asks of package pgxpool and of the options file.
    [PoolConfig] is [*pgxpool.Config]; [pgxpool_ParseConfig] and
    [pgxpool_NewWithConfig] are the functions of pgxpool, the second of
    which connects and panics on a configuration that [ParseConfig] did not
    make; [defaultConfig] is what [defaults] leaves in a fresh [config]
    ([defaults] is declared in a file that is not under src/). *)
Class Pgxpool `{W : World} := {
  PoolConfig : Type;
  pgxpool_ParseConfig : string → PoolConfig * option error;
  pgxpool_NewWithConfig : Ctx → PoolConfig → Env →
                          Outcome (pgxpool_Pool * option error) * Env;
  defaultConfig : config
}.

Section Construction.

Context `{P : Pgxpool}.

#[local] Existing Instances M_ret M_bind.

(** [type Option]: a function on a pointer to [config]; an option rewrites
    the configuration. *)
Definition Option : Type := config → config.

Definition ParseConfig (connString : string) : PoolConfig * option error :=
  pgxpool_ParseConfig connString.

Definition NewWithConfig (ctx : Ctx) (poolCfg : PoolConfig) (opts : list Option)
    : M (option LooselyTracedPool * option error) :=
  '(pool, err) ← (λ e, let '(o, e') := pgxpool_NewWithConfig ctx poolCfg e in
                       mkRun o e' []);
  match err with
  | Some err => mret (None, Some err)
  | None =>
      let c := defaultConfig in
      let c := foldl (λ c fn, fn c) c opts in
      mret (Some {| Pool := pool;
                    pool_traceParams := {| cfg := c; meta := ∅ |} |}, None)
  end.

Definition New (ctx : Ctx) (connString : string) (opts : list Option)
    : M (option LooselyTracedPool * option error) :=
  let '(poolCfg, err) := ParseConfig connString in
  match err with
  | Some err => mret (None, Some err)
  | None => NewWithConfig ctx poolCfg opts
  end.

End Construction.

(** ** More readings of operations and events *)

Section Readings.

Context `{W : World}.

(** The four methods that carry no SQL text for the injector. *)
Inductive PlainOp :=
| PlainBeginTx (p : LooselyTracedPool) (txOptions : TxOptions)
| PlainCommit (t : tracedTx)
| PlainRollback (t : tracedTx)
| PlainCopyFrom (t : tracedTx) (tableName columnNames : list string) (rowSrc : CopySrc).

Definition plainOp (p : PlainOp) : Op :=
  match p with
  | PlainBeginTx p txOptions => OpBeginTx p txOptions
  | PlainCommit t => OpCommit t
  | PlainRollback t => OpRollback t
  | PlainCopyFrom t tableName columnNames rowSrc =>
      OpCopyFrom t tableName columnNames rowSrc
  end.

(** The same call on a facade that wraps the same pool or transaction with
    other tracing parameters. *)
Definition withParams (tp : traceParams) (op : Op) : Op :=
  let retx (t : tracedTx) := {| Tx := Tx t; tx_traceParams := tp |} in
  match op with
  | OpBeginTx p txOptions =>
      OpBeginTx {| Pool := Pool p; pool_traceParams := tp |} txOptions
  | OpCommit t => OpCommit (retx t)
  | OpRollback t => OpRollback (retx t)
  | OpPrepare t name query => OpPrepare (retx t) name query
  | OpExec t query args => OpExec (retx t) query args
  | OpQuery t query args => OpQuery (retx t) query args
  | OpQueryRow t query args => OpQueryRow (retx t) query args
  | OpCopyFrom t tableName columnNames rowSrc =>
      OpCopyFrom (retx t) tableName columnNames rowSrc
  end.

(** The context a delegated call was given. *)
Definition callCtx (c : Call) : Ctx :=
  match c with
  | CallBeginTx ctx _ | CallCommit ctx | CallRollback ctx | CallPrepare ctx _ _
  | CallExec ctx _ _ | CallQuery ctx _ _ | CallQueryRow ctx _ _
  | CallCopyFrom ctx _ _ _ => ctx
  end.

(** The task events: [true] for a start, [false] for an end, with the
    name of the task. *)
Definition tasksOf (evs : list Event) : list (bool * string) :=
  omap (λ ev, match ev with
              | EvTaskStart name => Some (true, name)
              | EvTaskEnd name => Some (false, name)
              | _ => None
              end) evs.

(** A configuration with its suppress set and its static tags replaced. *)
Definition withMaps (c : config) (ignored : option (gset QueryType))
    (static : option (gmap string TagValue)) : config :=
  {| serviceName := serviceName c;
     spanName := spanName c;
     analyticsRate := analyticsRate c;
     ignoreQueryTypes := ignored;
     childSpansOnly := childSpansOnly c;
     errCheck := errCheck c;
     tags := static;
     dbmPropagationMode := dbmPropagationMode c |}.

(** A context with the value under [spanTagsKey] replaced. *)
Definition withAmbient (ctx : Ctx) (ambient : option (gmap string string)) : Ctx :=
  {| ctx_span := ctx_span ctx;
     ctx_spanTags := ambient;
     ctx_task := ctx_task ctx;
     ctx_executionTraced := ctx_executionTraced ctx |}.

End Readings.

(** ** More of the sample world *)

(** The sample world with the execution tracer off. *)
Definition quietWorld : World :=
  {| Env := Z;
     Arg := string;
     CommandTag := string;
     Rows := list string;
     Row := string;
     Stmt := string;
     TxOptions := unit;
     CopySrc := list (list string);
     time_Now := λ e, e;
     trace_IsEnabled := λ _, false;
     Inject := sampleInject;
     Sanitize := sampleSanitize |}.

(** A pool whose [BeginTx] hands out the successful transaction. *)
Definition samplePool : pgxpool_Pool (W:=sampleWorld) :=
  {| Pool_BeginTx := λ _ _ e,
       (Return (sampleTx (W:=sampleWorld) "INSERT 0 1" ["row"] "row" "stmt", None), e) |}.

(** A pool that cannot hand out a connection. *)
Definition exhaustedPool : pgxpool_Pool (W:=sampleWorld) :=
  {| Pool_BeginTx := λ _ _ e,
       (Return (nilTx (W:=sampleWorld), Some (errorString "pool exhausted")), e) |}.

(** pgxpool in the sample world: the pool connects unless the
    configuration says [down]. *)
Definition sampleConnect (ctx : Ctx) (poolCfg : string) (e : Z)
    : Outcome (pgxpool_Pool (W:=sampleWorld) * option error) * Z :=
  if bool_decide (poolCfg = "down")
  then (Return (exhaustedPool, Some (errorString "connection refused")), e + 1)
  else (Return (samplePool, None), e + 1).

(** A connection string parses when it is not empty. *)
Definition sampleParse (connString : string) : string * option error :=
  (connString,
   if bool_decide (connString = EmptyString)
   then Some (errorString "cannot parse connection string") else None).

Definition samplePgxpool : Pgxpool (W:=sampleWorld) :=
  @Build_Pgxpool sampleWorld string sampleParse sampleConnect
    (sampleConfig DBMPropagationModeDisabled None).

(** Two options: set the service name, set the propagation mode. *)
Definition WithServiceName (name : string) : Option :=
  λ c, {| serviceName := name;
          spanName := spanName c;
          analyticsRate := analyticsRate c;
          ignoreQueryTypes := ignoreQueryTypes c;
          childSpansOnly := childSpansOnly c;
          errCheck := errCheck c;
          tags := tags c;
          dbmPropagationMode := dbmPropagationMode c |}.

Definition WithDBMPropagation (mode : DBMPropagationMode) : Option :=
  λ c, {| serviceName := serviceName c;
          spanName := spanName c;
          analyticsRate := analyticsRate c;
          ignoreQueryTypes := ignoreQueryTypes c;
          childSpansOnly := childSpansOnly c;
          errCheck := errCheck c;
          tags := tags c;
          dbmPropagationMode := mode |}.

(** * Properties *)

(** ** Writing a map of tags, in any order *)

Section TagMaps.

Context {A B : Type}.
Implicit Types (m : gmap string A) (base : gmap string B) (g : A → B).

Lemma foldl_insert_nodup g (l : list (string * A)) base :
  NoDup l.*1 →
  foldl (λ acc kv, <[kv.1:=g kv.2]> acc) base l
  = (g <$> (list_to_map l : gmap string A)) ∪ base.
Proof.
  revert base. induction l as [|[k v] l IH]; intros base Hnd; simpl.
  - by rewrite fmap_empty, (left_id_L ∅ (∪)).
  - inversion_clear Hnd as [|? ? Hk Hl].
    rewrite IH by done. rewrite fmap_insert.
    apply map_eq; intros i.
    apply not_elem_of_list_to_map_1 in Hk.
    rewrite !lookup_union, !lookup_fmap.
    destruct (decide (k = i)) as [->|Hne].
    + rewrite !lookup_insert_eq, Hk. simpl.
      rewrite (left_id_L None _). by destruct (base !! i).
    + by rewrite !lookup_insert_ne, lookup_fmap by done.
Qed.

(** Whatever order the iteration over [m] takes, the writes leave [m] on top
    of what was there. *)
Lemma foldl_insert_any_order g m (l : list (string * A)) base :
  l ≡ₚ map_to_list m →
  foldl (λ acc kv, <[kv.1:=g kv.2]> acc) base l = (g <$> m) ∪ base.
Proof.
  intros Hp. rewrite foldl_insert_nodup.
  - by rewrite <- (list_to_map_flip m l).
  - rewrite Hp. apply NoDup_fst_map_to_list.
Qed.

End TagMaps.

Lemma setTags_fields s kvs :
  setTags s kvs =
  {| Name := Name s; Parent := Parent s; Start := Start s; SpanID := SpanID s;
     Tags := foldl (λ acc kv, <[kv.1:=VString kv.2]> acc) (Tags s) kvs;
     Finished := Finished s |}.
Proof.
  unfold setTags. revert s. induction kvs as [|[k v] kvs IH]; intros s; simpl.
  - by destruct s.
  - by rewrite IH.
Qed.

(** The order in which Go ranges over the map does not show in the span. *)
Lemma setTags_any_order s (m : gmap string string) kvs :
  kvs ≡ₚ map_to_list m →
  setTags s kvs =
  {| Name := Name s; Parent := Parent s; Start := Start s; SpanID := SpanID s;
     Tags := (VString <$> m) ∪ Tags s;
     Finished := Finished s |}.
Proof.
  intros Hp. rewrite setTags_fields. by rewrite (foldl_insert_any_order VString m).
Qed.

Lemma setTags_map s (m : gmap string string) :
  setTags s (map_to_list m) =
  {| Name := Name s; Parent := Parent s; Start := Start s; SpanID := SpanID s;
     Tags := (VString <$> m) ∪ Tags s;
     Finished := Finished s |}.
Proof. by apply setTags_any_order. Qed.

Lemma applyOption_tag_list c (kvs : list (string * TagValue)) :
  foldl applyOption c ((λ kv, Tag kv.1 kv.2) <$> kvs) =
  {| cfg_Tags := foldl (λ acc kv, <[kv.1:=kv.2]> acc) (cfg_Tags c) kvs;
     cfg_StartTime := cfg_StartTime c;
     cfg_SpanID := cfg_SpanID c |}.
Proof.
  revert c. induction kvs as [|[k v] kvs IH]; intros c; simpl.
  - by destruct c.
  - by rewrite IH.
Qed.

(** Static tags reach the span configuration whole, in any order of the
    iteration. *)
Lemma applyOption_static_any_order c (m : gmap string TagValue) kvs :
  kvs ≡ₚ map_to_list m →
  foldl applyOption c ((λ kv, Tag kv.1 kv.2) <$> kvs) =
  {| cfg_Tags := m ∪ cfg_Tags c;
     cfg_StartTime := cfg_StartTime c;
     cfg_SpanID := cfg_SpanID c |}.
Proof.
  intros Hp. rewrite applyOption_tag_list.
  rewrite (foldl_insert_any_order id m) by done. by rewrite map_fmap_id.
Qed.

Section Properties.

Context `{W : World}.

Implicit Types (tp : traceParams) (ctx : Ctx) (e : Env) (op : Op).

(** ** The emitter *)

(** The span configuration after the caller's options, the emitter's own,
    the static tags and the sample rate have been applied in that order. *)
Lemma tryTrace_options tp startTime spanOpts :
  let opts := spanOpts ++
    [ ServiceName (serviceName (cfg tp));
      SpanType ext.SpanTypeSQL;
      StartTime startTime;
      Tag ext.Component (VString "pgx/v5");
      Tag ext.SpanKind (VString ext.SpanKindClient);
      Tag ext.DBSystem (VString "postgres") ] in
  let opts :=
    match tags (cfg tp) with
    | Some tags => opts ++ ((λ kv, Tag kv.1 kv.2) <$> map_to_list tags)
    | None => opts
    end in
  let opts :=
    if negb (IsNaN (analyticsRate (cfg tp)))
    then opts ++ [Tag ext.EventSampleRate (VFloat (analyticsRate (cfg tp)))]
    else opts in
  foldl applyOption emptyConfig opts =
  {| cfg_Tags := analyticsTag tp ∪ staticTags tp ∪ fixedTags tp ∪ optionTags spanOpts;
     cfg_StartTime := Some startTime;
     cfg_SpanID := optionSpanID spanOpts |}.
Proof.
  unfold analyticsTag, staticTags, fixedTags, optionTags, optionSpanID.
  set (c := foldl applyOption emptyConfig spanOpts).
  destruct (tags (cfg tp)) as [m|], (IsNaN (analyticsRate (cfg tp))); simpl;
    rewrite ?foldl_app; fold c; simpl;
    rewrite ?(applyOption_static_any_order _ m (map_to_list m)) by reflexivity;
    simpl; f_equal;
    rewrite <- ?(assoc_L (∪)), ?(left_id_L ∅ (∪)), <- ?insert_union_singleton_l,
      <- ?insert_union_l, ?(left_id_L ∅ (∪)); done.
Qed.

Lemma tryTrace_emits tp ctx qtype query startTime err spanOpts e :
  tryTrace tp ctx qtype query startTime err spanOpts e =
  mkRun (Return tt) e (spanEvents tp ctx qtype query startTime err spanOpts).
Proof.
  unfold tryTrace, spanEvents, suppressed, ignoredType, orphaned.
  destruct (match ignoreQueryTypes (cfg tp) with
            | Some ignored => bool_decide (qtype ∈ ignored)
            | None => false
            end); [done|].
  destruct (childSpansOnly (cfg tp) && _); [done|]. simpl.
  unfold emit. do 3 f_equal.
  unfold emittedSpan, mergedTags, StartSpanFromContext.
  rewrite tryTrace_options.
  unfold errorTag, reported, ambientTags, metaTags, emitterTags, resourceOf, spanCtxOf.
  destruct (ctx_spanTags ctx) as [am|]; rewrite !setTags_map;
    destruct err as [err|];
    try destruct (match errCheck (cfg tp) with
                  | Some errCheck => errCheck err
                  | None => true
                  end);
    unfold Finish, SetTag; simpl; f_equal;
    rewrite <- ?(assoc_L (∪)), ?fmap_empty, ?(left_id_L ∅ (∪)),
      <- ?insert_union_singleton_l, <- ?insert_union_l, ?(left_id_L ∅ (∪)).
  all: done.
Qed.

(** ** Every method runs the template *)

Ltac run_facade :=
  cbv [runOp answering BeginTx Commit Rollback Prepare Exec Query QueryRow CopyFrom
       startTraceTask noopTaskEnd injectComments defer delegate
       mbind M_bind bind mret M_ret ret ask emit];
  cbv [template delegated opDelegate returning injected envAfterInject sqlSent
       extraOpts injectEvents taskCtx taskStartEvents taskEndEvents opMode opParams
       opType opQuery opCall carrierFor spanCtxOf];
  simpl.

Ltac case_externals :=
  repeat (simpl; cbv [fst snd]; match goal with
  | |- context [tryTrace ?a ?b ?c ?d ?f ?g ?h ?i] =>
      rewrite (tryTrace_emits a b c d f g h i)
  | |- context [trace_IsEnabled ?e] => destruct (trace_IsEnabled e) eqn:?
  | |- context [Inject ?a ?b ?c] => destruct (Inject a b c) as [[? ?] ?] eqn:?
  | |- context [match ?x with _ => _ end] =>
      lazymatch x with
      | context [match _ with _ => _ end] => fail
      | _ => destruct x eqn:?
      end
  end).

Lemma runOp_template op ctx e : runOp op ctx e = template op ctx e.
Proof.
  destruct op; run_facade; case_externals.
  all: simpl; rewrite ?app_nil_r; simpl; rewrite <- ?app_assoc; simpl; try done.
  all: congruence.
Qed.


(** ** Reading the events of a run *)

Lemma spansOf_app (evs1 evs2 : list Event) :
  spansOf (evs1 ++ evs2) = spansOf evs1 ++ spansOf evs2.
Proof. apply omap_app. Qed.

Lemma elem_of_spansOf (evs : list Event) s : s ∈ spansOf evs ↔ EvSpan s ∈ evs.
Proof.
  unfold spansOf. rewrite list_elem_of_omap. split.
  - intros ([] & Hin & Heq); by simplify_eq.
  - intros Hin. by exists (EvSpan s).
Qed.

Lemma spansOf_spanEvents tp ctx qtype query startTime err spanOpts :
  spansOf (spanEvents tp ctx qtype query startTime err spanOpts) =
  if suppressed tp ctx qtype then []
  else [emittedSpan tp ctx qtype query startTime err spanOpts].
Proof. unfold spanEvents. by destruct (suppressed tp ctx qtype). Qed.

Lemma spansOf_injectEvents op ctx e : spansOf (injectEvents op ctx e) = [].
Proof.
  unfold injectEvents.
  destruct (opMode op), (injected op ctx e) as [[? []]|]; done.
Qed.

Lemma spansOf_taskStartEvents op ctx e : spansOf (taskStartEvents op ctx e) = [].
Proof. unfold taskStartEvents. by destruct (trace_IsEnabled _). Qed.

Lemma spansOf_taskEndEvents op ctx e : spansOf (taskEndEvents op ctx e) = [].
Proof. unfold taskEndEvents. by destruct (trace_IsEnabled _). Qed.

(** The spans of a traced method are those of its one call of the emitter,
    which it makes when the delegated call has returned. *)
Lemma spansOf_runOp op ctx e :
  spansOf (trace (runOp op ctx e)) =
  match (delegated op ctx e).1 with
  | Return r =>
      spansOf (spanEvents (opParams op) (taskCtx op ctx e) (opType op) (opQuery op)
                 (time_Now e) (returned_err r) (extraOpts op ctx e))
  | Panic => []
  end.
Proof.
  rewrite runOp_template. unfold template. cbn [trace].
  rewrite !spansOf_app, spansOf_injectEvents, spansOf_taskStartEvents,
    spansOf_taskEndEvents.
  destruct (delegated op ctx e).1; simpl; by rewrite ?app_nil_r.
Qed.

(** A span of a traced method is the span the emitter builds from the
    result of the delegated call. *)
Lemma span_of_runOp op ctx e s :
  s ∈ spansOf (trace (runOp op ctx e)) →
  ∃ r, (delegated op ctx e).1 = Return r
     ∧ EvReturn r ∈ trace (runOp op ctx e)
     ∧ suppressed (opParams op) (taskCtx op ctx e) (opType op) = false
     ∧ s = emittedSpan (opParams op) (taskCtx op ctx e) (opType op) (opQuery op)
             (time_Now e) (returned_err r) (extraOpts op ctx e).
Proof.
  rewrite spansOf_runOp. rewrite runOp_template. unfold template. cbn [trace].
  destruct (delegated op ctx e).1 as [r|]; [|by intros ?%elem_of_nil].
  rewrite spansOf_spanEvents.
  destruct (suppressed _ _ _); [by intros ?%elem_of_nil|].
  intros ->%list_elem_of_singleton. exists r. split_and!; try done.
  rewrite !elem_of_app, !elem_of_cons. do 3 right. left. by left.
Qed.

(** The ambient tags are those of the caller's context: opening the task
    leaves them alone, and it leaves the active span alone. *)
Lemma taskCtx_spanTags op ctx e : ctx_spanTags (taskCtx op ctx e) = ctx_spanTags ctx.
Proof. unfold taskCtx. by destruct (trace_IsEnabled _). Qed.

Lemma taskCtx_span op ctx e : ctx_span (taskCtx op ctx e) = ctx_span ctx.
Proof. unfold taskCtx. by destruct (trace_IsEnabled _). Qed.

Lemma ambientTags_taskCtx op ctx e : ambientTags (taskCtx op ctx e) = ambientTags ctx.
Proof. unfold ambientTags. by rewrite taskCtx_spanTags. Qed.

Ltac break_events :=
  repeat match goal with
         | H : ∃ _, _ |- _ => destruct H
         | H : _ ∨ _ |- _ => destruct H
         end;
  by simplify_eq.

(** What the events of the template are. *)
Lemma elem_of_injectEvents op ctx e ev :
  ev ∈ injectEvents op ctx e →
  (∃ c sc, ev = EvInject c sc) ∨ (∃ f err, ev = EvWarn f err).
Proof.
  unfold injectEvents.
  destruct (opMode op), (injected op ctx e) as [[? []]|];
    rewrite ?elem_of_cons, ?elem_of_nil; intuition eauto.
Qed.

Lemma elem_of_spanEvents tp ctx qtype query startTime err spanOpts ev :
  ev ∈ spanEvents tp ctx qtype query startTime err spanOpts → ∃ s, ev = EvSpan s.
Proof.
  unfold spanEvents. destruct (suppressed _ _ _);
    rewrite ?elem_of_cons, ?elem_of_nil; intuition eauto.
Qed.

Lemma opMode_sqlOp (sop : SqlOp) : opMode (sqlOp sop) = Some (sqlMode sop).
Proof. by destruct sop. Qed.

Lemma opQuery_sqlOp (sop : SqlOp) : opQuery (sqlOp sop) = sqlText sop.
Proof. by destruct sop. Qed.

(** The injection step of the four methods that carry SQL text. *)
Lemma injected_sqlOp (sop : SqlOp) ctx e :
  injected (sqlOp sop) ctx e =
  Some (Inject (spanCtxOf ctx)
          (carrierFor (opParams (sqlOp sop)) (sqlText sop) (sqlMode sop)) e).1.
Proof. by destruct sop. Qed.

Lemma envAfterInject_sqlOp (sop : SqlOp) ctx e :
  envAfterInject (sqlOp sop) ctx e =
  (Inject (spanCtxOf ctx)
     (carrierFor (opParams (sqlOp sop)) (sqlText sop) (sqlMode sop)) e).2.
Proof. by destruct sop. Qed.

Lemma sqlSent_sqlOp (sop : SqlOp) ctx e :
  sqlSent (sqlOp sop) ctx e =
  carrier_Query (Inject (spanCtxOf ctx)
     (carrierFor (opParams (sqlOp sop)) (sqlText sop) (sqlMode sop)) e).1.1.
Proof.
  unfold sqlSent. rewrite injected_sqlOp. by destruct (Inject _ _ e) as [[c ierr] e'].
Qed.

Lemma extraOpts_sqlOp (sop : SqlOp) ctx e :
  extraOpts (sqlOp sop) ctx e =
  withDBMTraceInjectedTag (sqlMode sop) ++
  [WithSpanID (carrier_SpanID (Inject (spanCtxOf ctx)
     (carrierFor (opParams (sqlOp sop)) (sqlText sop) (sqlMode sop)) e).1.1)].
Proof.
  unfold extraOpts. rewrite injected_sqlOp, opMode_sqlOp.
  by destruct (Inject _ _ e) as [[c ierr] e'].
Qed.

Lemma injectEvents_sqlOp (sop : SqlOp) ctx e :
  let carrier := carrierFor (opParams (sqlOp sop)) (sqlText sop) (sqlMode sop) in
  injectEvents (sqlOp sop) ctx e =
  EvInject carrier (spanCtxOf ctx) ::
  match (Inject (spanCtxOf ctx) carrier e).1.2 with
  | Some err =>
      [EvWarn "contrib/jackc/pgx.v5: failed to inject query comments: %v" err]
  | None => []
  end.
Proof.
  unfold injectEvents. rewrite injected_sqlOp, opMode_sqlOp, opQuery_sqlOp.
  by destruct (Inject _ _ e) as [[c ierr] e'].
Qed.

Lemma injectionsOf_app (evs1 evs2 : list Event) :
  injectionsOf (evs1 ++ evs2) = injectionsOf evs1 ++ injectionsOf evs2.
Proof. apply omap_app. Qed.

Lemma callsOf_app (evs1 evs2 : list Event) :
  callsOf (evs1 ++ evs2) = callsOf evs1 ++ callsOf evs2.
Proof. apply omap_app. Qed.

Lemma injectionsOf_spanEvents tp ctx qtype query startTime err spanOpts :
  injectionsOf (spanEvents tp ctx qtype query startTime err spanOpts) = [].
Proof. unfold spanEvents. by destruct (suppressed _ _ _). Qed.

Lemma callsOf_spanEvents tp ctx qtype query startTime err spanOpts :
  callsOf (spanEvents tp ctx qtype query startTime err spanOpts) = [].
Proof. unfold spanEvents. by destruct (suppressed _ _ _). Qed.

(** A method that injects hands the injector one carrier, and no other
    method hands it any. *)
Lemma injectionsOf_runOp op ctx e :
  injectionsOf (trace (runOp op ctx e)) =
  match opMode op with
  | Some mode => [carrierFor (opParams op) (opQuery op) mode]
  | None => []
  end.
Proof.
  rewrite runOp_template. unfold template. cbn [trace].
  rewrite !injectionsOf_app.
  unfold injectEvents, injected, taskStartEvents, taskEndEvents.
  destruct (opMode op) as [mode|]; simpl;
    destruct (trace_IsEnabled _), (delegated op ctx e).1; simpl;
    rewrite ?injectionsOf_spanEvents; try done.
  all: by repeat match goal with
              | |- context [match ?x with _ => _ end] => destruct x
              end.
Qed.

(** Every method delegates exactly one call, in the context of its task and
    with the SQL text the injector left in the carrier. *)
Lemma callsOf_runOp op ctx e :
  callsOf (trace (runOp op ctx e)) = [opCall op (taskCtx op ctx e) (sqlSent op ctx e)].
Proof.
  rewrite runOp_template. unfold template. cbn [trace].
  rewrite !callsOf_app.
  unfold injectEvents, injected, taskStartEvents, taskEndEvents.
  destruct (opMode op) as [mode|]; simpl;
    destruct (trace_IsEnabled _), (delegated op ctx e).1; simpl;
    rewrite ?callsOf_spanEvents; try done.
  all: by repeat match goal with
              | |- context [match ?x with _ => _ end] => destruct x
              end.
Qed.

Lemma returnsOf_app (evs1 evs2 : list Event) :
  returnsOf (evs1 ++ evs2) = returnsOf evs1 ++ returnsOf evs2.
Proof. apply omap_app. Qed.

Lemma returnsOf_spanEvents tp ctx qtype query startTime err spanOpts :
  returnsOf (spanEvents tp ctx qtype query startTime err spanOpts) = [].
Proof. unfold spanEvents. by destruct (suppressed _ _ _). Qed.

(** The one thing a delegated call returned, or nothing when it panicked. *)
Lemma returnsOf_runOp op ctx e :
  returnsOf (trace (runOp op ctx e)) =
  match (delegated op ctx e).1 with
  | Return r => [r]
  | Panic => []
  end.
Proof.
  rewrite runOp_template. unfold template. cbn [trace].
  rewrite !returnsOf_app.
  unfold injectEvents, injected, taskStartEvents, taskEndEvents.
  destruct (opMode op) as [mode|]; simpl;
    destruct (trace_IsEnabled _), (delegated op ctx e).1; simpl;
    rewrite ?returnsOf_spanEvents; try done.
  all: by repeat match goal with
              | |- context [match ?x with _ => _ end] => destruct x
              end.
Qed.

Lemma answer_err_answerOf tp r : answer_err (answerOf tp r) = returned_err r.
Proof. by destruct r. Qed.

Lemma trace_answering {A} (f : A → Answer) (m : M A) e :
  trace (answering f m e) = trace (m e).
Proof. unfold answering. by destruct (m e) as [[]]. Qed.

(** The injector in closed form: it returns what [Inject] left in the
    carrier, and logs a warning when [Inject] failed. *)
Lemma injectComments_run tp ctx query mode e :
  let inj := Inject (spanCtxOf ctx) (carrierFor tp query mode) e in
  injectComments tp ctx query mode e =
  mkRun (Return (carrier_Query inj.1.1, carrier_SpanID inj.1.1)) inj.2
    (EvInject (carrierFor tp query mode) (spanCtxOf ctx) ::
     match inj.1.2 with
     | Some err =>
         [EvWarn "contrib/jackc/pgx.v5: failed to inject query comments: %v" err]
     | None => []
     end).
Proof.
  cbv [injectComments mbind M_bind bind mret M_ret ret emit carrierFor spanCtxOf].
  simpl. by destruct (Inject _ _ e) as [[c [err|]] e'].
Qed.

(** ** The claims *)

(** C5.  The emitter returns without touching the environment and tests the
    two suppression rules in order: an operation kind in the suppress set
    gives no span, whatever the error; otherwise child-spans-only without an
    active span in the context gives no span; otherwise the emitter gives
    exactly one span, and that span is finished. *)
Theorem tryTrace_suppression tp ctx qtype query startTime err spanOpts e :
  ∃ s, Finished s = true ∧
    tryTrace tp ctx qtype query startTime err spanOpts e =
    mkRun (Return tt) e
      (if match ignoreQueryTypes (cfg tp) with
          | Some ignored => bool_decide (qtype ∈ ignored)
          | None => false
          end
       then []
       else if childSpansOnly (cfg tp) && negb (bool_decide (is_Some (ctx_span ctx)))
       then []
       else [EvSpan s]).
Proof.
  exists (emittedSpan tp ctx qtype query startTime err spanOpts). split; [done|].
  rewrite tryTrace_emits. unfold spanEvents, suppressed, ignoredType, orphaned.
  unfold SpanFromContext.
  destruct (match ignoreQueryTypes (cfg tp) with
            | Some ignored => bool_decide (qtype ∈ ignored)
            | None => false
            end); [done|].
  by destruct (childSpansOnly (cfg tp) && _).
Qed.

(** C1, as the code has it.  The tags of an emitted span are merged so that
    a later source overrides an earlier one with the same key, in this order:
    the caller's extra options first, then the emitter's own options,
    then the static config tags, then the analytics sample rate (present
    only when the rate is not NaN), then query type and resource name, then
    the per-facade metadata, then the ambient context tags, and last the
    error when it is reported.  The union below lists them from last to
    first, its left operand winning; the span starts at the start time the
    caller measured. *)
Theorem tryTrace_merge_order tp ctx qtype query startTime err spanOpts e :
  (λ s, (Start s, Tags s))
    <$> spansOf (trace (tryTrace tp ctx qtype query startTime err spanOpts e)) =
  if suppressed tp ctx qtype then []
  else [ (Some startTime,
          errorTag tp err ∪ ambientTags ctx ∪ metaTags tp ∪ emitterTags qtype query
            ∪ analyticsTag tp ∪ staticTags tp ∪ fixedTags tp ∪ optionTags spanOpts) ].
Proof.
  rewrite tryTrace_emits. simpl. rewrite spansOf_spanEvents.
  by destruct (suppressed tp ctx qtype).
Qed.

(** C7.  [Prepare] hands the injector exactly one carrier; its mode is
    service-only when the configured mode is full and the configured mode
    otherwise, so it is never stronger than service-only. *)
Theorem Prepare_injects_service_at_most (t : tracedTx) ctx name query e :
  let configured := dbmPropagationMode (cfg (tx_traceParams t)) in
  ∃ carrier,
    injectionsOf (trace (Prepare t ctx name query e)) = [carrier]
    ∧ carrier_Query carrier = query
    ∧ carrier_Mode carrier =
        (if decide (configured = DBMPropagationModeFull)
         then DBMPropagationModeService else configured)
    ∧ (strength (carrier_Mode carrier) ≤ strength DBMPropagationModeService)%nat.
Proof.
  intros configured.
  pose proof (injectionsOf_runOp (OpPrepare t name query) ctx e) as H.
  simpl in H. rewrite trace_answering in H.
  eexists. split; [exact H|]. simpl. fold configured.
  split_and!; try done.
  destruct configured; simpl; lia.
Qed.

(** C4.  For [Prepare], [Exec], [Query] and [QueryRow] the injector returns
    a span identifier, and every span the method emits has that identifier
    as the one fixed by its start options. *)
Theorem span_id_is_injected_id (sop : SqlOp) ctx e :
  ∃ cquery spanID,
    result (injectComments (opParams (sqlOp sop)) ctx (sqlText sop) (sqlMode sop) e)
      = Return (cquery, spanID)
    ∧ WithSpanID spanID ∈ extraOpts (sqlOp sop) ctx e
    ∧ Forall (λ s, SpanID s = Some spanID)
        (spansOf (trace (runOp (sqlOp sop) ctx e))).
Proof.
  rewrite injectComments_run. simpl. eexists _, _. split; [done|].
  split.
  - rewrite extraOpts_sqlOp, elem_of_app, list_elem_of_singleton. by right.
  - apply Forall_forall. intros s (r & _ & _ & _ & ->)%span_of_runOp. simpl.
    rewrite extraOpts_sqlOp. unfold optionSpanID, withDBMTraceInjectedTag.
    by destruct (decide _).
Qed.

(** C9.  Whatever [Inject] reports, the injector returns the query and the
    identifier it finds in the carrier, and logs a warning when [Inject]
    failed; the method then delegates its one call with that query and hands
    back what the call returned, or panics where the call panicked. *)
Theorem injection_failure_is_swallowed (sop : SqlOp) ctx e :
  let op := sqlOp sop in
  let carrier := carrierFor (opParams op) (sqlText sop) (sqlMode sop) in
  let inj := Inject (spanCtxOf ctx) carrier e in
  injectComments (opParams op) ctx (sqlText sop) (sqlMode sop) e =
    mkRun (Return (carrier_Query inj.1.1, carrier_SpanID inj.1.1)) inj.2
      (EvInject carrier (spanCtxOf ctx) ::
       match inj.1.2 with
       | Some err =>
           [EvWarn "contrib/jackc/pgx.v5: failed to inject query comments: %v" err]
       | None => []
       end)
  ∧ warningsOf (trace (runOp op ctx e)) = from_option (λ err, [err]) [] inj.1.2
  ∧ callsOf (trace (runOp op ctx e))
      = [opCall op (taskCtx op ctx e) (carrier_Query inj.1.1)]
  ∧ result (runOp op ctx e) =
      match (opDelegate op (taskCtx op ctx e) (carrier_Query inj.1.1) inj.2).1 with
      | Return r => Return (answerOf (opParams op) r)
      | Panic => Panic
      end.
Proof.
  intros op carrier inj. split; [apply injectComments_run|].
  split_and!.
  - rewrite runOp_template. unfold template. cbn [trace].
    unfold warningsOf. rewrite !omap_app.
    unfold op. rewrite injectEvents_sqlOp. fold op carrier inj.
    unfold taskStartEvents, taskEndEvents, spanEvents.
    destruct inj as [[c [ierr|]] e']; simpl;
      destruct (trace_IsEnabled _), (delegated op ctx e).1; simpl;
      by repeat match goal with
                | |- context [if ?x then _ else _] => destruct x
                end.
  - unfold op. by rewrite callsOf_runOp, sqlSent_sqlOp.
  - rewrite runOp_template. unfold template, delegated. cbn [result].
    unfold op. by rewrite sqlSent_sqlOp, envAfterInject_sqlOp.
Qed.

(** C2, as the code has it.  A traced operation that opens an
    execution-trace task ends it exactly once, as its last action, on every
    way out of the method, by return or by panic; the end is deferred, so
    every span the operation emits comes before it. *)
Theorem task_ends_after_span op ctx e :
  EvTaskStart (opType op) ∈ trace (runOp op ctx e) →
  ∃ pre,
    trace (runOp op ctx e) = pre ++ [EvTaskEnd (opType op)]
    ∧ (∀ name, EvTaskEnd name ∉ pre)
    ∧ spansOf pre = spansOf (trace (runOp op ctx e)).
Proof.
  rewrite runOp_template. unfold template. cbn [trace].
  unfold taskStartEvents, taskEndEvents.
  set (body := match (delegated op ctx e).1 with
               | Return r => EvReturn r :: spanEvents _ _ _ _ _ _ _
               | Panic => []
               end).
  assert (∀ ev, ev ∈ body → (∃ r, ev = EvReturn r) ∨ (∃ s, ev = EvSpan s)) as Hbody.
  { intros ev. unfold body. destruct (delegated op ctx e).1.
    - rewrite elem_of_cons. intros [->|?%elem_of_spanEvents]; eauto.
    - by intros ?%elem_of_nil. }
  destruct (trace_IsEnabled _).
  - intros _. exists (injectEvents op ctx e ++ [EvTaskStart (opType op)]
                       ++ [EvCall (opCall op (taskCtx op ctx e) (sqlSent op ctx e))]
                       ++ body).
    split_and!.
    + by rewrite <- !app_assoc.
    + intros name. rewrite !elem_of_app, !elem_of_cons, elem_of_nil.
      intros [?%elem_of_injectEvents|[|[|?%Hbody]]];
        break_events.
    + rewrite !spansOf_app. simpl. by rewrite app_nil_r.
  - rewrite !elem_of_app, !elem_of_cons, !elem_of_nil.
    intros [?%elem_of_injectEvents|[|[|[?%Hbody|]]]];
      break_events.
Qed.

(** ** One key of the merged tags *)

Lemma errorTag_lookup_ne tp err k : k ≠ ext.Error → errorTag tp err !! k = None.
Proof.
  intros Hk. unfold errorTag. destruct (reported tp err).
  - by rewrite lookup_singleton_ne.
  - apply lookup_empty.
Qed.

Lemma analyticsTag_lookup_ne tp k : k ≠ ext.EventSampleRate → analyticsTag tp !! k = None.
Proof.
  intros Hk. unfold analyticsTag. destruct (IsNaN _).
  - apply lookup_empty.
  - by rewrite lookup_singleton_ne.
Qed.

Lemma optionTags_extra mode id :
  optionTags (withDBMTraceInjectedTag mode ++ [WithSpanID id]) =
  if decide (mode = DBMPropagationModeFull)
  then {[ keyDBMTraceInjected := VBool true ]} else ∅.
Proof. unfold optionTags, withDBMTraceInjectedTag. by destruct (decide _). Qed.

(** The options a method adds carry no tag but the marker. *)
Lemma extraOpts_lookup_ne op ctx e k :
  k ≠ keyDBMTraceInjected → optionTags (extraOpts op ctx e) !! k = None.
Proof.
  intros Hk. unfold extraOpts.
  destruct (opMode op) as [mode|], (injected op ctx e) as [[c ierr]|];
    try apply lookup_empty.
  rewrite optionTags_extra. destruct (decide _).
  - by rewrite lookup_singleton_ne.
  - apply lookup_empty.
Qed.

(** The error key is written by the error step and by the user's tags
    alone. *)
Lemma mergedTags_Error op ctx e err :
  mergedTags (opParams op) (taskCtx op ctx e) (opType op) (opQuery op) err
    (extraOpts op ctx e) !! ext.Error =
  match reported (opParams op) err with
  | Some err => Some (VError err)
  | None => userTags (opParams op) ctx !! ext.Error
  end.
Proof.
  unfold mergedTags, userTags. rewrite ambientTags_taskCtx.
  rewrite !lookup_union.
  rewrite extraOpts_lookup_ne, analyticsTag_lookup_ne by done.
  unfold emitterTags, fixedTags. rewrite !lookup_insert_ne, lookup_empty by done.
  unfold errorTag. destruct (reported _ err).
  - rewrite lookup_singleton_eq.
    by destruct (ambientTags ctx !! _), (metaTags _ !! _), (staticTags _ !! _).
  - rewrite lookup_empty.
    by destruct (ambientTags ctx !! _), (metaTags _ !! _), (staticTags _ !! _).
Qed.

(** The resource name is written by the emitter and, after it, by the
    per-facade metadata and the ambient tags. *)
Lemma mergedTags_ResourceName op ctx e err :
  mergedTags (opParams op) (taskCtx op ctx e) (opType op) (opQuery op) err
    (extraOpts op ctx e) !! ext.ResourceName =
  Some (default (VString (resourceOf (opType op) (opQuery op)))
          ((ambientTags ctx ∪ metaTags (opParams op)) !! ext.ResourceName)).
Proof.
  unfold mergedTags. rewrite ambientTags_taskCtx.
  rewrite !lookup_union.
  rewrite errorTag_lookup_ne by done.
  unfold emitterTags. rewrite lookup_insert_eq.
  by destruct (ambientTags ctx !! _), (metaTags _ !! _), (analyticsTag _ !! _),
    (staticTags _ !! _), (fixedTags _ !! _), (optionTags _ !! _).
Qed.

(** The marker is written by the caller's extra options and, after them, by
    the user's tags. *)
Lemma mergedTags_marker (sop : SqlOp) ctx e err :
  let op := sqlOp sop in
  mergedTags (opParams op) (taskCtx op ctx e) (opType op) (opQuery op) err
    (extraOpts op ctx e) !! keyDBMTraceInjected =
  match userTags (opParams op) ctx !! keyDBMTraceInjected with
  | Some v => Some v
  | None =>
      if decide (sqlMode sop = DBMPropagationModeFull) then Some (VBool true) else None
  end.
Proof.
  intros op. unfold mergedTags, userTags. rewrite ambientTags_taskCtx.
  rewrite !lookup_union.
  rewrite errorTag_lookup_ne, analyticsTag_lookup_ne by done.
  unfold emitterTags, fixedTags. rewrite !lookup_insert_ne, lookup_empty by done.
  unfold op. rewrite extraOpts_sqlOp, optionTags_extra.
  destruct (decide _).
  - rewrite lookup_singleton_eq.
    by destruct (ambientTags ctx !! _), (metaTags _ !! _), (staticTags _ !! _).
  - rewrite lookup_empty.
    by destruct (ambientTags ctx !! _), (metaTags _ !! _), (staticTags _ !! _).
Qed.

(** Every span of a traced method satisfies what the emitted span does. *)
Lemma Forall_spans_runOp op ctx e (P : Span → Prop) :
  (∀ r, (delegated op ctx e).1 = Return r →
        EvReturn r ∈ trace (runOp op ctx e) →
        suppressed (opParams op) (taskCtx op ctx e) (opType op) = false →
        P (emittedSpan (opParams op) (taskCtx op ctx e) (opType op) (opQuery op)
             (time_Now e) (returned_err r) (extraOpts op ctx e))) →
  Forall P (spansOf (trace (runOp op ctx e))).
Proof.
  intros HP. apply Forall_forall. intros s (r & Hd & Hr & Hs & ->)%span_of_runOp.
  by apply HP.
Qed.

(** C3, as the code has it.  Each of [Prepare], [Exec], [Query] and
    [QueryRow] delegates its call with the SQL text the injector returned
    and hands the emitter the text the caller supplied.  The emitter sets the
    resource name of every span, of these and of the other methods, to that
    text, or to the name of the operation kind when the text is empty
    ([BeginTx], [Commit], [Rollback]); per-facade metadata and ambient tags
    are written after it, so one of them under the key of the resource name
    replaces it. *)
Theorem resource_is_original_sql :
  (∀ (sop : SqlOp) ctx e,
     ∃ cquery spanID,
       result (injectComments (opParams (sqlOp sop)) ctx (sqlText sop) (sqlMode sop) e)
         = Return (cquery, spanID)
       ∧ callsOf (trace (runOp (sqlOp sop) ctx e))
           = [opCall (sqlOp sop) (taskCtx (sqlOp sop) ctx e) cquery]
       ∧ opQuery (sqlOp sop) = sqlText sop)
  ∧ (∀ op ctx e,
       Forall (λ s,
           (∃ ctx' startTime err spanOpts e',
              EvSpan s ∈ trace (tryTrace (opParams op) ctx' (opType op) (opQuery op)
                                  startTime err spanOpts e'))
           ∧ Tags s !! ext.ResourceName =
               Some (default
                       (VString (if bool_decide (opQuery op ≠ EmptyString)
                                 then opQuery op else opType op))
                       ((ambientTags ctx ∪ metaTags (opParams op))
                          !! ext.ResourceName)))
         (spansOf (trace (runOp op ctx e)))).
Proof.
  split.
  - intros sop ctx e. rewrite injectComments_run. simpl. eexists _, _.
    split; [done|]. by rewrite callsOf_runOp, sqlSent_sqlOp, opQuery_sqlOp.
  - intros op ctx e. apply Forall_spans_runOp. intros r _ _ Hs. split.
    + eexists _, _, _, _, e. rewrite tryTrace_emits. simpl.
      unfold spanEvents. rewrite Hs. apply list_elem_of_here.
    + simpl. apply mergedTags_ResourceName.
Qed.

(** C6, as the code has it.  A traced method hands back what the delegated
    call returned, its error unchanged.  When that error is not nil and the
    error classifier is absent or accepts it, the span carries the error
    under the error key; in every other case the emitter writes nothing
    under that key, and the span has there what the ambient tags, the
    per-facade metadata or the static tags put, if one of them uses the
    key. *)
Theorem error_tag_iff_reported op ctx e :
  ((∃ r, returnsOf (trace (runOp op ctx e)) = [r]
       ∧ result (runOp op ctx e) = Return (answerOf (opParams op) r)
       ∧ answer_err (answerOf (opParams op) r) = returned_err r)
   ∨ (returnsOf (trace (runOp op ctx e)) = []
      ∧ result (runOp op ctx e) = Panic))
  ∧ Forall (λ s,
        ∃ r, returnsOf (trace (runOp op ctx e)) = [r]
           ∧ Tags s !! ext.Error =
               match returned_err r with
               | Some err =>
                   if match errCheck (cfg (opParams op)) with
                      | None => true
                      | Some errCheck => errCheck err
                      end
                   then Some (VError err)
                   else userTags (opParams op) ctx !! ext.Error
               | None => userTags (opParams op) ctx !! ext.Error
               end)
      (spansOf (trace (runOp op ctx e))).
Proof.
  split.
  - rewrite returnsOf_runOp, runOp_template. unfold template. cbn [result].
    destruct (delegated op ctx e).1 as [r|]; [left|by right].
    exists r. by rewrite answer_err_answerOf.
  - apply Forall_spans_runOp. intros r Hd _ _. exists r.
    rewrite returnsOf_runOp, Hd. split; [done|].
    simpl. rewrite mergedTags_Error. unfold reported.
    destruct (returned_err r) as [err|]; [|done].
    by destruct (match errCheck (cfg (opParams op)) with
                 | Some errCheck => errCheck err
                 | None => true
                 end).
Qed.

(** C8, as the code has it.  [QueryRow] hands the emitter a nil error,
    whatever the delegated call did, so the emitter writes nothing under the
    error key of a [QueryRow] span; the span has there what the ambient tags,
    the per-facade metadata or the static tags put, if one of them uses the
    key. *)
Theorem QueryRow_error_is_none (t : tracedTx) ctx query args e :
  Forall (λ s,
      (∃ ctx' spanOpts e',
         EvSpan s ∈ trace (tryTrace (tx_traceParams t) ctx' QueryTypeQuery query
                             (time_Now e) None spanOpts e'))
      ∧ Tags s !! ext.Error = userTags (tx_traceParams t) ctx !! ext.Error)
    (spansOf (trace (QueryRow t ctx query args e))).
Proof.
  rewrite <- (trace_answering AnsQueryRow).
  change (answering AnsQueryRow (QueryRow t ctx query args) e)
    with (runOp (OpQueryRow t query args) ctx e).
  apply Forall_spans_runOp. intros r Hd _ Hs.
  assert (returned_err r = None) as Herr.
  { revert Hd. unfold delegated. simpl. unfold returning.
    destruct (Tx_QueryRow _ _ _ _ _).1; simpl; by intros; simplify_eq. }
  rewrite Herr. split.
  - eexists _, _, e. rewrite tryTrace_emits. cbn [trace].
    unfold spanEvents. simpl in Hs. rewrite Hs. apply list_elem_of_here.
  - simpl. by rewrite (mergedTags_Error (OpQueryRow t query args)).
Qed.

(** C10, as the code has it.  The marker reaches the span as an extra
    option computed from the mode handed to the injector: never for
    [Prepare], whose mode is already lowered, and for [Exec], [Query] and
    [QueryRow] exactly when the configured mode is full.  The ambient tags,
    the per-facade metadata and the static tags are applied after the extra
    options, so one of them under the key of the marker replaces it or puts
    it where the method put none. *)
Theorem marker_follows_injection_mode (sop : SqlOp) ctx e :
  Forall (λ s,
      Tags s !! keyDBMTraceInjected =
      match userTags (opParams (sqlOp sop)) ctx !! keyDBMTraceInjected with
      | Some v => Some v
      | None =>
          match sop with
          | SqlPrepare _ _ _ => None
          | SqlExec t _ _ | SqlQuery t _ _ | SqlQueryRow t _ _ =>
              if decide (dbmPropagationMode (cfg (tx_traceParams t))
                         = DBMPropagationModeFull)
              then Some (VBool true) else None
          end
      end)
    (spansOf (trace (runOp (sqlOp sop) ctx e))).
Proof.
  apply Forall_spans_runOp. intros r _ _ _. simpl.
  rewrite (mergedTags_marker sop).
  destruct (userTags _ ctx !! _); [done|].
  destruct sop; simpl; try done.
  by repeat destruct (decide _).
Qed.

End Properties.

(** ** Runs in the sample world *)

(** C1, against the order the specification gives.  The pool is configured
    with a static tag under the key of the trace-injected marker and with
    full propagation; [Exec] passes the marker as an extra option.  The
    specification lets the extra option override the static tag; the span
    carries the static tag. *)
Lemma merge_order_counterexample :
  let static : gmap string TagValue := {[ keyDBMTraceInjected := VString "static" ]} in
  let op := OpExec (sampleTracedTx DBMPropagationModeFull (Some static))
                   "SELECT 1" [] in
  (λ s, Tags s !! keyDBMTraceInjected) <$> spansOf (trace (runOp op background 0))
    = [Some (VString "static")]
  ∧ specMergedTags (opParams op) background (extraOpts op background 0)
      !! keyDBMTraceInjected = Some (VBool true).
Proof. split; vm_compute; reflexivity. Qed.

(** C2, against the order the specification gives.  [Exec] on a
    transaction whose call succeeds, inside a trace and with the execution
    tracer on: the span is emitted before the task is ended. *)
Lemma task_end_counterexample :
  let op := OpExec (sampleTracedTx DBMPropagationModeFull None) "SELECT 1" [] in
  eventName <$> trace (runOp op inTrace 0)
    = ["inject"; "task start"; "call"; "return"; "span"; "task end"]
  ∧ taskEndsBeforeSpans false (trace (runOp op inTrace 0)) = false.
Proof. split; vm_compute; reflexivity. Qed.

(** A run of [Exec] on a nil transaction: the call panics, no span is
    emitted, and the task is still ended. *)
Lemma task_ends_after_span_witness :
  let op := OpExec {| Tx := nilTx (W:=sampleWorld);
                      tx_traceParams := sampleParams DBMPropagationModeFull None |}
                   "SELECT 1" [] in
  result (runOp op inTrace 0) = Panic
  ∧ ∃ pre,
      trace (runOp op inTrace 0) = pre ++ [EvTaskEnd (opType op)]
      ∧ (∀ name, EvTaskEnd name ∉ pre)
      ∧ spansOf pre = spansOf (trace (runOp op inTrace 0)).
Proof.
  split; [reflexivity|].
  apply (task_ends_after_span (W:=sampleWorld)).
  apply list_elem_of_lookup. exists 1%nat. vm_compute. reflexivity.
Defined.

(** C3, against the claim.  [Exec] in a context whose ambient tags use the
    key of the resource name: the span carries the ambient value, not the
    SQL text. *)
Lemma resource_name_counterexample :
  let op := OpExec (sampleTracedTx DBMPropagationModeFull None) "SELECT 1" [] in
  let ctx := WithSpanTags background {[ ext.ResourceName := "batch" ]} in
  (λ s, Tags s !! ext.ResourceName) <$> spansOf (trace (runOp op ctx 0))
    = [Some (VString "batch")].
Proof. vm_compute. reflexivity. Qed.

(** C6, against the claim.  [Commit] succeeds, so its error is nil, in a
    context whose ambient tags use the error key: the span carries a tag
    under the error key. *)
Lemma error_tag_counterexample :
  let op := OpCommit (sampleTracedTx DBMPropagationModeFull None) in
  let ctx := WithSpanTags background {[ ext.Error := "boom" ]} in
  result (runOp op ctx 0) = Return (AnsCommit None)
  ∧ (λ s, Tags s !! ext.Error) <$> spansOf (trace (runOp op ctx 0))
      = [Some (VString "boom")].
Proof. split; vm_compute; reflexivity. Qed.

(** C8, against the claim.  [QueryRow] in a context whose ambient tags use
    the error key: the span carries a tag under the error key. *)
Lemma QueryRow_error_counterexample :
  let t := sampleTracedTx DBMPropagationModeFull None in
  let ctx := WithSpanTags inTrace {[ ext.Error := "deadline" ]} in
  (λ s, Tags s !! ext.Error)
    <$> spansOf (trace (QueryRow t ctx "SELECT 1" [] 0))
    = [Some (VString "deadline")].
Proof. vm_compute. reflexivity. Qed.

(** C10, against the claim.  [Prepare] in a context whose ambient tags use
    the key of the marker: the span of [Prepare] carries the marker. *)
Lemma Prepare_marker_counterexample :
  let op := OpPrepare (sampleTracedTx DBMPropagationModeFull None) "stmt" "SELECT 1" in
  let ctx := WithSpanTags background {[ keyDBMTraceInjected := "true" ]} in
  (λ s, Tags s !! keyDBMTraceInjected) <$> spansOf (trace (runOp op ctx 0))
    = [Some (VString "true")].
Proof. vm_compute. reflexivity. Qed.

(** ** Sample runs of the confirmed behaviour *)

(** [Exec] inside a trace with full propagation: the call gets the commented
    SQL, the span the caller's SQL, the injected identifier and the marker. *)
Example Exec_full_run :
  let op := OpExec (sampleTracedTx DBMPropagationModeFull None) "SELECT 1" [] in
  result (runOp op inTrace 0) = Return (AnsExec (W:=sampleWorld) "INSERT 0 1" None)
  ∧ callsOf (trace (runOp op inTrace 0))
      = [CallExec (W:=sampleWorld) (WithTask inTrace QueryTypeExec)
           "/*dddbs='postgres.db',ddtid='11',ddsid='7000',ddsp='1'*/ SELECT 1" []]
  ∧ spanSummary <$> spansOf (trace (runOp op inTrace 0))
      = [(Some 7000, Some (VString "SELECT 1"), Some (VBool true), None)].
Proof. repeat split; vm_compute; reflexivity. Qed.

(** [Prepare] with full propagation configured: the injector gets
    service-only, and the span has no marker. *)
Example Prepare_full_run :
  let op := OpPrepare (sampleTracedTx DBMPropagationModeFull None) "stmt" "SELECT 1" in
  carrier_Mode <$> injectionsOf (trace (runOp op inTrace 0)) = [DBMPropagationModeService]
  ∧ callsOf (trace (runOp op inTrace 0))
      = [CallPrepare (W:=sampleWorld) (WithTask inTrace QueryTypePrepare) "stmt"
           "/*dddbs='postgres.db'*/ SELECT 1"]
  ∧ spanSummary <$> spansOf (trace (runOp op inTrace 0))
      = [(Some 7000, Some (VString "SELECT 1"), None, None)].
Proof. repeat split; vm_compute; reflexivity. Qed.

(** A failing [Exec] without a classifier: the error is on the span and is
    returned. *)
Example Exec_error_reported :
  let op := OpExec (failingTracedTx None) "SELECT 1" [] in
  result (runOp op background 0) = Return (AnsExec (W:=sampleWorld) "" (Some errNoRows))
  ∧ spanSummary <$> spansOf (trace (runOp op background 0))
      = [(Some 7000, Some (VString "SELECT 1"), Some (VBool true),
          Some (VError errNoRows))].
Proof. repeat split; vm_compute; reflexivity. Qed.

(** A failing [Exec] whose error the classifier declines: no error on the
    span, and the error is still returned. *)
Example Exec_error_declined :
  let op := OpExec (failingTracedTx (Some (λ _, false))) "SELECT 1" [] in
  result (runOp op background 0) = Return (AnsExec (W:=sampleWorld) "" (Some errNoRows))
  ∧ spanSummary <$> spansOf (trace (runOp op background 0))
      = [(Some 7000, Some (VString "SELECT 1"), Some (VBool true), None)].
Proof. repeat split; vm_compute; reflexivity. Qed.

(** [Commit]: no SQL text, so the resource is the name of the kind. *)
Example Commit_run :
  let op := OpCommit (sampleTracedTx DBMPropagationModeFull None) in
  eventName <$> trace (runOp op background 0)
    = ["task start"; "call"; "return"; "span"; "task end"]
  ∧ spanSummary <$> spansOf (trace (runOp op background 0))
      = [(None, Some (VString "Commit"), None, None)].
Proof. repeat split; vm_compute; reflexivity. Qed.

(** Suppression: a suppressed kind gives no span; child-spans-only gives
    none outside a trace and one inside. *)
Example suppressed_runs :
  let ignoring := filteredTracedTx (Some {[ QueryTypeExec ]}) false in
  let childOnly := filteredTracedTx None true in
  spansOf (trace (runOp (OpExec ignoring "SELECT 1" []) inTrace 0)) = []
  ∧ length (spansOf (trace (runOp (OpCommit ignoring) inTrace 0))) = 1%nat
  ∧ spansOf (trace (runOp (OpExec childOnly "SELECT 1" []) background 0)) = []
  ∧ length (spansOf (trace (runOp (OpExec childOnly "SELECT 1" []) inTrace 0))) = 1%nat.
Proof. repeat split; vm_compute; reflexivity. Qed.

(** A failing injector: the failure is logged, the call goes out with the
    SQL the carrier holds, and the result comes back. *)
Example broken_injection_run :
  let op := OpExec brokenTracedTx "SELECT 1" [] in
  result (runOp op inTrace 0) = Return (AnsExec (W:=brokenWorld) "INSERT 0 1" None)
  ∧ warningsOf (trace (runOp op inTrace 0)) = [errorString "malformed carrier"]
  ∧ callsOf (trace (runOp op inTrace 0))
      = [CallExec (W:=brokenWorld) (WithTask inTrace QueryTypeExec) "SELECT 1" []]
  ∧ spanSummary <$> spansOf (trace (runOp op inTrace 0))
      = [(Some 7000, Some (VString "SELECT 1"), Some (VBool true), None)].
Proof. repeat split; vm_compute; reflexivity. Qed.

(** * More properties of the facade *)

Section MoreProperties.
Context `{W : World}.
Implicit Types (tp : traceParams) (ctx : Ctx) (e : Env) (op : Op).

Lemma suppressed_taskCtx op ctx e qtype :
  suppressed (opParams op) (taskCtx op ctx e) qtype = suppressed (opParams op) ctx qtype.
Proof.
  unfold suppressed, orphaned, SpanFromContext. by rewrite taskCtx_span.
Qed.

(** X1.  The tags a caller attaches with [WithSpanTags] are on every span
    a traced method emits in that context, each under its key as a string;
    only the error key may hold something else, the reported error. *)
Theorem ambient_tags_reach_span op ctx (tags : gmap string string) e :
  Forall (λ s, delete ext.Error (VString <$> tags) ⊆ Tags s)
    (spansOf (trace (runOp op (WithSpanTags ctx tags) e))).
Proof.
  apply Forall_spans_runOp. intros r _ _ _. simpl.
  apply map_subseteq_spec. intros k v.
  rewrite lookup_delete_Some. intros [Hk Hv].
  unfold mergedTags. rewrite ambientTags_taskCtx.
  rewrite !lookup_union, errorTag_lookup_ne by done.
  unfold ambientTags. simpl. rewrite Hv. simpl.
  by destruct (metaTags _ !! k), (emitterTags _ _ !! k), (analyticsTag _ !! k),
    (staticTags _ !! k), (fixedTags _ !! k), (optionTags _ !! k).
Qed.

(** X2.  Every span of a traced method starts at the time the method read
    on entry, before the injection and before the delegated call; it has the
    configured span name and is finished when the method is left. *)
Theorem span_starts_at_entry op ctx e :
  Forall (λ s, Start s = Some (time_Now e)
             ∧ Name s = spanName (cfg (opParams op))
             ∧ Finished s = true)
    (spansOf (trace (runOp op ctx e))).
Proof.
  apply Forall_spans_runOp. by intros r _ _ _.
Qed.

(** X3.  A traced method delegates exactly one call.  It emits one span
    when that call returned and no suppression rule applies to its kind in
    the caller's context, and no span otherwise: none for a call that
    panicked, none for a suppressed kind. *)
Theorem one_span_per_returned_call op ctx e :
  let tr := trace (runOp op ctx e) in
  length (callsOf tr) = 1%nat
  ∧ (length (returnsOf tr) ≤ 1)%nat
  ∧ length (spansOf tr) =
      (if suppressed (opParams op) ctx (opType op) then 0 else length (returnsOf tr))%nat.
Proof.
  intros tr. unfold tr.
  rewrite callsOf_runOp, returnsOf_runOp, spansOf_runOp.
  destruct (delegated op ctx e).1 as [r|]; simpl.
  - rewrite spansOf_spanEvents, suppressed_taskCtx.
    split_and!; [done|lia|]. by destruct (suppressed _ _ _).
  - split_and!; [done|lia|]. by destruct (suppressed _ _ _).
Qed.

Lemma opMode_plainOp (pop : PlainOp) : opMode (plainOp pop) = None.
Proof. by destruct pop. Qed.

Lemma extraOpts_plainOp (pop : PlainOp) ctx e : extraOpts (plainOp pop) ctx e = [].
Proof. unfold extraOpts. by rewrite opMode_plainOp. Qed.

(** X4.  [BeginTx], [Commit], [Rollback] and [CopyFrom] never call the
    injector and log no warning; their spans have no identifier fixed in
    advance, and carry the marker only if a tag of the user puts it. *)
Theorem plain_methods_never_inject (pop : PlainOp) ctx e :
  let tr := trace (runOp (plainOp pop) ctx e) in
  injectionsOf tr = []
  ∧ warningsOf tr = []
  ∧ Forall (λ s, SpanID s = None
               ∧ Tags s !! keyDBMTraceInjected
                 = userTags (opParams (plainOp pop)) ctx !! keyDBMTraceInjected)
      (spansOf tr).
Proof.
  intros tr. unfold tr. split_and!.
  - by rewrite injectionsOf_runOp, opMode_plainOp.
  - rewrite runOp_template. unfold template. cbn [trace].
    unfold warningsOf. rewrite !omap_app.
    unfold injectEvents, taskStartEvents, taskEndEvents, spanEvents.
    rewrite opMode_plainOp. simpl.
    destruct (trace_IsEnabled _), (delegated _ ctx e).1; simpl;
      by repeat match goal with
                | |- context [if ?x then _ else _] => destruct x
                end.
  - apply Forall_spans_runOp. intros r _ _ _. simpl.
    rewrite extraOpts_plainOp. split; [done|].
    unfold mergedTags, userTags. rewrite ambientTags_taskCtx.
    rewrite !lookup_union.
    rewrite errorTag_lookup_ne, analyticsTag_lookup_ne by done.
    unfold emitterTags, fixedTags, optionTags. simpl.
    rewrite !lookup_insert_ne, lookup_empty by done.
    by destruct (ambientTags ctx !! _), (metaTags _ !! _), (staticTags _ !! _).
Qed.

Lemma Forall_injectEvents op ctx e :
  Forall (λ ev, eventName ev ∈ ["inject"; "warn"; "task start"]) (injectEvents op ctx e).
Proof.
  apply Forall_forall. intros ev [(c & sc & ->)|(f & err & ->)]%elem_of_injectEvents;
    simpl; rewrite !elem_of_cons; auto.
Qed.

Lemma Forall_spanEvents tp ctx qtype query startTime err spanOpts :
  Forall (λ ev, eventName ev ∈ ["return"; "span"; "task end"])
    (spanEvents tp ctx qtype query startTime err spanOpts).
Proof.
  apply Forall_forall. intros ev (s & ->)%elem_of_spanEvents.
  simpl. rewrite !elem_of_cons. auto.
Qed.

(** X5.  The two phases of a traced method: what comes before the
    delegated call is the injection, its warning and the start of the task;
    what comes after is the return, the span and the end of the task.  No
    span is emitted before the call and nothing is injected after it. *)
Theorem call_between_injection_and_span op ctx e :
  ∃ pre c post,
    trace (runOp op ctx e) = pre ++ EvCall c :: post
    ∧ Forall (λ ev, eventName ev ∈ ["inject"; "warn"; "task start"]) pre
    ∧ Forall (λ ev, eventName ev ∈ ["return"; "span"; "task end"]) post.
Proof.
  rewrite runOp_template. unfold template. cbn [trace].
  eexists (injectEvents op ctx e ++ taskStartEvents op ctx e), _, _.
  split; [by rewrite <- app_assoc|]. split.
  - apply Forall_app. split; [apply Forall_injectEvents|].
    unfold taskStartEvents. destruct (trace_IsEnabled _); [|done].
    apply Forall_singleton. simpl. rewrite !elem_of_cons. auto.
  - apply Forall_app. split.
    + destruct (delegated op ctx e).1; [|done].
      apply Forall_cons. split; [|apply Forall_spanEvents].
      simpl. rewrite !elem_of_cons. auto.
    + unfold taskEndEvents. destruct (trace_IsEnabled _); [|done].
      apply Forall_singleton. simpl. rewrite !elem_of_cons. auto.
Qed.

Lemma tasksOf_app (evs1 evs2 : list Event) :
  tasksOf (evs1 ++ evs2) = tasksOf evs1 ++ tasksOf evs2.
Proof. apply omap_app. Qed.

Lemma tasksOf_injectEvents op ctx e : tasksOf (injectEvents op ctx e) = [].
Proof.
  unfold injectEvents.
  destruct (opMode op), (injected op ctx e) as [[? []]|]; done.
Qed.

Lemma tasksOf_spanEvents tp ctx qtype query startTime err spanOpts :
  tasksOf (spanEvents tp ctx qtype query startTime err spanOpts) = [].
Proof. unfold spanEvents. by destruct (suppressed _ _ _). Qed.

(** X6.  With the execution tracer off when the task would be opened, the
    delegated call gets the caller's context as it is and no task is opened
    or ended; with the tracer on, the call gets that context with the task
    named after the operation kind, and the task is opened and ended once. *)
Theorem call_context_carries_task op ctx e :
  let enabled := trace_IsEnabled (envAfterInject op ctx e) in
  let tr := trace (runOp op ctx e) in
  callCtx <$> callsOf tr = [if enabled then WithTask ctx (opType op) else ctx]
  ∧ tasksOf tr = (if enabled then [(true, opType op); (false, opType op)] else []).
Proof.
  intros enabled tr. unfold tr. split.
  - rewrite callsOf_runOp. unfold taskCtx. fold enabled. simpl. f_equal.
    by destruct op.
  - rewrite runOp_template. unfold template. cbn [trace].
    rewrite !tasksOf_app, tasksOf_injectEvents.
    unfold taskStartEvents, taskEndEvents. fold enabled.
    destruct enabled, (delegated op ctx e).1; simpl; by rewrite ?tasksOf_spanEvents.
Qed.

Lemma result_answering {A} (f : A → Answer) (m : M A) e :
  result (answering f m e) =
  match result (m e) with Return a => Return (f a) | Panic => Panic end.
Proof. unfold answering. by destruct (m e) as [[]]. Qed.

Lemma final_answering {A} (f : A → Answer) (m : M A) e :
  final (answering f m e) = final (m e).
Proof. unfold answering. by destruct (m e) as [[]]. Qed.

(** X7.  [BeginTx] returns a traced transaction exactly when the pool
    returned no error: the transaction the pool returned, with the tracing
    parameters of the pool.  On an error it returns that error and no
    transaction, and a panic of the pool goes through. *)
Theorem BeginTx_wraps_on_success (p : LooselyTracedPool) ctx txOptions e :
  let called := Pool_BeginTx (Pool p) (taskCtx (OpBeginTx p txOptions) ctx e) txOptions e in
  result (BeginTx p ctx txOptions e) =
    match called.1 with
    | Return (tx, None) =>
        Return (Some {| Tx := tx; tx_traceParams := pool_traceParams p |}, None)
    | Return (_, Some err) => Return (None, Some err)
    | Panic => Panic
    end
  ∧ final (BeginTx p ctx txOptions e) = called.2.
Proof.
  intros called.
  pose proof (runOp_template (OpBeginTx p txOptions) ctx e) as H.
  apply (f_equal result) in H as Hr. apply (f_equal final) in H as Hf.
  simpl in Hr, Hf. rewrite result_answering in Hr. rewrite final_answering in Hf.
  unfold delegated, returning in Hr, Hf. simpl in Hr, Hf.
  change (envAfterInject (OpBeginTx p txOptions) ctx e) with e in Hr, Hf.
  fold called in Hr, Hf. split; [|done].
  destruct (result (BeginTx p ctx txOptions e)) as [[tx' err']|],
    called.1 as [[tx [err|]]|]; simpl in Hr; by simplify_eq.
Qed.

Lemma spans_of_suppressed op ctx e :
  suppressed (opParams op) ctx (opType op) = true →
  spansOf (trace (runOp op ctx e)) = [].
Proof.
  intros Hs. rewrite spansOf_runOp.
  destruct (delegated op ctx e).1; [|done].
  by rewrite spansOf_spanEvents, suppressed_taskCtx, Hs.
Qed.

(** X8.  [QueryRow] is traced under the kind of [Query]: suppressing
    [QueryTypeQuery] silences both, and the row is still queried. *)
Theorem QueryRow_shares_kind_Query (t : tracedTx) ctx query args e ignored :
  ignoreQueryTypes (cfg (tx_traceParams t)) = Some ignored →
  QueryTypeQuery ∈ ignored →
  spansOf (trace (QueryRow t ctx query args e)) = []
  ∧ spansOf (trace (Query t ctx query args e)) = []
  ∧ length (callsOf (trace (QueryRow t ctx query args e))) = 1%nat.
Proof.
  intros Hig Hin.
  assert (suppressed (tx_traceParams t) ctx QueryTypeQuery = true) as Hs.
  { unfold suppressed, ignoredType. rewrite Hig. by rewrite bool_decide_eq_true_2. }
  pose proof (spans_of_suppressed (OpQueryRow t query args) ctx e Hs) as H1.
  pose proof (spans_of_suppressed (OpQuery t query args) ctx e Hs) as H2.
  pose proof (callsOf_runOp (OpQueryRow t query args) ctx e) as H3.
  simpl in H1, H2, H3.
  rewrite trace_answering in H1. rewrite trace_answering in H2.
  rewrite trace_answering in H3. by rewrite H1, H2, H3.
Qed.

(** X9.  A nil suppress set, a nil map of static tags and a context without
    span tags make the emitter do what empty maps make it do. *)
Theorem nil_maps_are_empty_maps (c : config) (m : gmap string string) ctx
    qtype query startTime err spanOpts e :
  tryTrace {| cfg := withMaps c None None; meta := m |} (withAmbient ctx None)
    qtype query startTime err spanOpts e
  = tryTrace {| cfg := withMaps c (Some ∅) (Some ∅); meta := m |}
      (withAmbient ctx (Some ∅)) qtype query startTime err spanOpts e.
Proof.
  rewrite !tryTrace_emits. f_equal.
Qed.

(** X10.  The order in which Go ranges over the tags of a map does not show:
    writing them on a span, or turning static tags into start options, gives
    the same span and the same configuration in every order. *)
Theorem range_order_is_irrelevant (s : Span) (c : StartSpanConfig)
    (m : gmap string string) (static : gmap string TagValue) kvs opts :
  kvs ≡ₚ map_to_list m →
  opts ≡ₚ map_to_list static →
  setTags s kvs = setTags s (map_to_list m)
  ∧ foldl applyOption c ((λ kv, Tag kv.1 kv.2) <$> opts)
    = foldl applyOption c ((λ kv, Tag kv.1 kv.2) <$> map_to_list static).
Proof.
  intros Hm Hs. split.
  - rewrite !setTags_fields.
    by rewrite (foldl_insert_any_order VString m kvs),
      (foldl_insert_any_order VString m (map_to_list m)).
  - rewrite !applyOption_tag_list.
    by rewrite (foldl_insert_any_order id static opts),
      (foldl_insert_any_order id static (map_to_list static)).
Qed.

(** X11.  Every span has the service name, the span type, the component,
    the span kind, the database system and the query type; each has the
    value the emitter gives it unless a tag of the user under the same key
    replaces it (for the query type: per-facade metadata or an ambient tag). *)
Theorem fixed_tags_always_present op ctx e :
  let tp := opParams op in
  Forall (λ s,
      Tags s !! ext.ServiceName
        = Some (default (VString (serviceName (cfg tp))) (userTags tp ctx !! ext.ServiceName))
      ∧ Tags s !! ext.SpanType
        = Some (default (VString ext.SpanTypeSQL) (userTags tp ctx !! ext.SpanType))
      ∧ Tags s !! ext.Component
        = Some (default (VString "pgx/v5") (userTags tp ctx !! ext.Component))
      ∧ Tags s !! ext.SpanKind
        = Some (default (VString ext.SpanKindClient) (userTags tp ctx !! ext.SpanKind))
      ∧ Tags s !! ext.DBSystem
        = Some (default (VString "postgres") (userTags tp ctx !! ext.DBSystem))
      ∧ Tags s !! "sql.query_type"
        = Some (default (VString (opType op))
                  ((ambientTags ctx ∪ metaTags tp) !! "sql.query_type")))
    (spansOf (trace (runOp op ctx e))).
Proof.
  intros tp. apply Forall_spans_runOp. intros r _ _ _. simpl.
  unfold mergedTags, userTags. rewrite ambientTags_taskCtx. fold tp.
  rewrite !lookup_union.
  rewrite !errorTag_lookup_ne, !analyticsTag_lookup_ne by done.
  unfold emitterTags, fixedTags.
  split_and!;
    repeat (rewrite lookup_insert_eq || (rewrite lookup_insert_ne by done));
    rewrite ?lookup_empty;
    by destruct (ambientTags ctx !! _), (metaTags _ !! _), (staticTags _ !! _),
      (optionTags _ !! _).
Qed.

(** X12.  The analytics sample rate is on the span when it is not NaN, over
    a static tag under the same key; a NaN rate leaves the key to the static
    tags.  Per-facade metadata and ambient tags come after both. *)
Theorem sample_rate_tag_unless_NaN op ctx e :
  let tp := opParams op in
  Forall (λ s,
      Tags s !! ext.EventSampleRate =
      match (ambientTags ctx ∪ metaTags tp) !! ext.EventSampleRate with
      | Some v => Some v
      | None =>
          if IsNaN (analyticsRate (cfg tp))
          then staticTags tp !! ext.EventSampleRate
          else Some (VFloat (analyticsRate (cfg tp)))
      end)
    (spansOf (trace (runOp op ctx e))).
Proof.
  intros tp. apply Forall_spans_runOp. intros r _ _ _. simpl.
  unfold mergedTags. rewrite ambientTags_taskCtx. fold tp.
  rewrite !lookup_union.
  rewrite errorTag_lookup_ne, extraOpts_lookup_ne by done.
  unfold emitterTags, fixedTags. rewrite !lookup_insert_ne, lookup_empty by done.
  unfold analyticsTag. destruct (IsNaN _).
  - rewrite lookup_empty.
    by destruct (ambientTags ctx !! _), (metaTags _ !! _), (staticTags _ !! _).
  - rewrite lookup_singleton_eq.
    by destruct (ambientTags ctx !! _), (metaTags _ !! _), (staticTags _ !! _).
Qed.

(** X13.  The first thing [Prepare], [Exec], [Query] and [QueryRow] do is
    hand the injector the caller's SQL text, the service name of the
    configuration, the span context of the active span if the context has
    one, and the configured mode ([Prepare]: service-only for full); they
    inject once and then delegate once. *)
Theorem injection_comes_first (sop : SqlOp) ctx e :
  ∃ rest,
    trace (runOp (sqlOp sop) ctx e) =
    EvInject
      {| carrier_Query := sqlText sop;
         carrier_Mode :=
           match sop with
           | SqlPrepare t _ _ =>
               if decide (dbmPropagationMode (cfg (tx_traceParams t))
                          = DBMPropagationModeFull)
               then DBMPropagationModeService
               else dbmPropagationMode (cfg (tx_traceParams t))
           | SqlExec t _ _ | SqlQuery t _ _ | SqlQueryRow t _ _ =>
               dbmPropagationMode (cfg (tx_traceParams t))
           end;
         carrier_DBServiceName := serviceName (cfg (opParams (sqlOp sop)));
         carrier_SpanID := 0 |}
      (span_Context <$> ctx_span ctx) :: rest
    ∧ injectionsOf rest = []
    ∧ length (callsOf rest) = 1%nat.
Proof.
  rewrite runOp_template. unfold template. cbn [trace].
  rewrite injectEvents_sqlOp. simpl. eexists. split.
  - unfold carrierFor, spanCtxOf, SpanFromContext. by destruct sop.
  - rewrite !injectionsOf_app, !callsOf_app.
    unfold taskStartEvents, taskEndEvents.
    unfold spanEvents.
    destruct (Inject _ _ e).1.2, (trace_IsEnabled _), (delegated _ ctx e).1; simpl;
      by repeat match goal with
                | |- context [if ?x then _ else _] => destruct x
                end.
Qed.

(** X14.  The resource of a [CopyFrom] span is [copy_from] followed by the
    sanitized table name, never the bare kind, whatever the name sanitizes
    to; its query type is [CopyFrom].  Per-facade metadata and ambient tags
    under these keys replace them. *)
Theorem CopyFrom_resource_names_the_table (t : tracedTx) ctx tableName columnNames
    rowSrc e :
  Forall (λ s,
      Tags s !! ext.ResourceName =
      Some (default (VString ("copy_from " +:+ Sanitize tableName))
              ((ambientTags ctx ∪ metaTags (tx_traceParams t)) !! ext.ResourceName))
      ∧ Tags s !! "sql.query_type" =
          Some (default (VString QueryTypeCopyFrom)
                  ((ambientTags ctx ∪ metaTags (tx_traceParams t)) !! "sql.query_type")))
    (spansOf (trace (CopyFrom t ctx tableName columnNames rowSrc e))).
Proof.
  rewrite <- (trace_answering (λ r, AnsCopyFrom r.1 r.2)).
  change (answering _ (CopyFrom t ctx tableName columnNames rowSrc) e)
    with (runOp (OpCopyFrom t tableName columnNames rowSrc) ctx e).
  apply Forall_spans_runOp. intros r _ _ _. split.
  - simpl. by rewrite (mergedTags_ResourceName (OpCopyFrom t tableName columnNames rowSrc)).
  - simpl. unfold mergedTags.
    rewrite (ambientTags_taskCtx (OpCopyFrom t tableName columnNames rowSrc)).
    rewrite !lookup_union.
    rewrite errorTag_lookup_ne by done.
    unfold emitterTags. rewrite lookup_insert_ne, lookup_insert_eq by done.
    by destruct (ambientTags ctx !! _), (metaTags _ !! _), (analyticsTag _ !! _),
      (staticTags _ !! _), (fixedTags _ !! _), (optionTags _ !! _).
Qed.

Lemma delegated_withParams tp1 tp2 op ctx e :
  serviceName (cfg tp1) = serviceName (cfg tp2) →
  dbmPropagationMode (cfg tp1) = dbmPropagationMode (cfg tp2) →
  delegated (withParams tp1 op) ctx e = delegated (withParams tp2 op) ctx e
  ∧ opCall (withParams tp1 op) (taskCtx (withParams tp1 op) ctx e)
      (sqlSent (withParams tp1 op) ctx e)
    = opCall (withParams tp2 op) (taskCtx (withParams tp2 op) ctx e)
        (sqlSent (withParams tp2 op) ctx e).
Proof.
  intros Hsvc Hmode.
  destruct op;
    do 2 (unfold delegated, sqlSent, injected, envAfterInject, taskCtx, carrierFor;
          simpl);
    by rewrite ?Hsvc, ?Hmode.
Qed.

(** X18.  What is delegated does not depend on how spans are made: two
    facades over the same pool or transaction whose parameters agree on the
    service name and the propagation mode delegate the same call, get the
    same answer and leave the same environment, whatever their suppress
    sets, tags, sample rates and classifiers. *)
Theorem tracing_parameters_leave_the_call_alone tp1 tp2 op ctx e :
  serviceName (cfg tp1) = serviceName (cfg tp2) →
  dbmPropagationMode (cfg tp1) = dbmPropagationMode (cfg tp2) →
  callsOf (trace (runOp (withParams tp1 op) ctx e))
    = callsOf (trace (runOp (withParams tp2 op) ctx e))
  ∧ returnsOf (trace (runOp (withParams tp1 op) ctx e))
    = returnsOf (trace (runOp (withParams tp2 op) ctx e))
  ∧ final (runOp (withParams tp1 op) ctx e)
    = final (runOp (withParams tp2 op) ctx e).
Proof.
  intros Hsvc Hmode.
  destruct (delegated_withParams tp1 tp2 op ctx e Hsvc Hmode) as [Hd Hc].
  rewrite !callsOf_runOp, !returnsOf_runOp, !runOp_template.
  unfold template. cbn [final]. by rewrite Hd, Hc.
Qed.
End MoreProperties.

Section Building.
Context `{P : Pgxpool}.

Ltac run_New :=
  cbv [New NewWithConfig ParseConfig mbind M_bind bind mret M_ret ret].

(** X15.  [New] returns a pool or an error, never both and never neither.
    A connection string that does not parse gives the parse error without
    touching the environment; a pool that cannot be made gives the error of
    pgxpool; otherwise the facade wraps the pool pgxpool made.  [New] emits
    no event. *)
Theorem New_returns_pool_or_error ctx connString opts e :
  trace (New ctx connString opts e) = []
  ∧ match result (New ctx connString opts e) with
    | Return (Some p, None) =>
        ∃ poolCfg e',
          pgxpool_ParseConfig connString = (poolCfg, None)
          ∧ pgxpool_NewWithConfig ctx poolCfg e = (Return (WrappedPool p, None), e')
          ∧ final (New ctx connString opts e) = e'
    | Return (None, Some err) =>
        (∃ poolCfg, pgxpool_ParseConfig connString = (poolCfg, Some err)
                    ∧ final (New ctx connString opts e) = e)
        ∨ (∃ poolCfg pool e',
             pgxpool_ParseConfig connString = (poolCfg, None)
             ∧ pgxpool_NewWithConfig ctx poolCfg e = (Return (pool, Some err), e'))
    | Return (Some _, Some _) | Return (None, None) => False
    | Panic =>
        ∃ poolCfg e',
          pgxpool_ParseConfig connString = (poolCfg, None)
          ∧ pgxpool_NewWithConfig ctx poolCfg e = (Panic, e')
    end.
Proof.
  run_New.
  destruct (pgxpool_ParseConfig connString) as [poolCfg [err|]] eqn:Hparse; simpl.
  { split; [done|]. left. by exists poolCfg. }
  destruct (pgxpool_NewWithConfig ctx poolCfg e) as [[[pool [err|]]|] e'] eqn:Hnew;
    simpl; (split; [done|]); eauto 10.
Qed.

(** X16.  [NewWithConfig] applies the options to the default configuration
    from first to last: one more option at the end is applied to what the
    others left, and the wrapped pool is the same. *)
Theorem options_apply_in_order ctx poolCfg opts (o : Option) e p :
  result (NewWithConfig ctx poolCfg opts e) = Return (Some p, None) →
  ∃ p',
    result (NewWithConfig ctx poolCfg (opts ++ [o]) e) = Return (Some p', None)
    ∧ WrappedPool p' = WrappedPool p
    ∧ cfg (pool_traceParams p') = o (cfg (pool_traceParams p))
    ∧ cfg (pool_traceParams p) = foldl (λ c fn, fn c) defaultConfig opts.
Proof.
  run_New.
  destruct (pgxpool_NewWithConfig ctx poolCfg e) as [[[pool [err|]]|] e'];
    simpl; intros; simplify_eq.
  eexists. split; [done|]. simpl. by rewrite foldl_app.
Qed.

(** X17.  A transaction begun on a pool that [New] built is traced with the
    configuration the options made from the defaults and with no per-facade
    metadata; [BeginTx] returns it without an error. *)
Theorem transactions_share_pool_params ctx0 connString opts e0 p ctx txOptions e t err :
  result (New ctx0 connString opts e0) = Return (Some p, None) →
  result (BeginTx p ctx txOptions e) = Return (Some t, err) →
  err = None
  ∧ tx_traceParams t =
      {| cfg := foldl (λ c fn, fn c) defaultConfig opts; meta := ∅ |}
  ∧ metaTags (tx_traceParams t) = ∅.
Proof.
  intros Hnew Hbegin.
  assert (pool_traceParams p =
          {| cfg := foldl (λ c fn, fn c) defaultConfig opts; meta := ∅ |}) as Hp.
  { revert Hnew. run_New.
    destruct (pgxpool_ParseConfig connString) as [poolCfg [perr|]]; simpl;
      [intros; simplify_eq|].
    destruct (pgxpool_NewWithConfig ctx0 poolCfg e0) as [[[pool [cerr|]]|] e'];
      simpl; intros; by simplify_eq. }
  pose proof (runOp_template (OpBeginTx p txOptions) ctx e) as H.
  apply (f_equal result) in H. unfold template in H. cbn [result runOp opParams] in H.
  rewrite result_answering, Hbegin in H.
  destruct (delegated (OpBeginTx p txOptions) ctx e).1 as [[tx [berr|]| | | | | | |]|];
    simpl in H; simplify_eq.
  simpl. rewrite Hp. split_and!; try done.
Qed.

End Building.

(** ** Runs for the properties with a premise *)

(** X8 in the sample world: [QueryTypeQuery] is suppressed. *)
Lemma QueryRow_shares_kind_Query_witness :
  let t := filteredTracedTx (Some {[ QueryTypeQuery ]}) false in
  spansOf (trace (QueryRow t inTrace "SELECT 1" [] 0)) = []
  ∧ spansOf (trace (Query t inTrace "SELECT 1" [] 0)) = []
  ∧ length (callsOf (trace (QueryRow t inTrace "SELECT 1" [] 0))) = 1%nat.
Proof.
  apply (QueryRow_shares_kind_Query (W:=sampleWorld)
           (filteredTracedTx (Some {[ QueryTypeQuery ]}) false) inTrace "SELECT 1" [] 0
           {[ QueryTypeQuery ]}).
  - reflexivity.
  - apply elem_of_singleton. reflexivity.
Defined.

(** X10 on two maps of two tags each, ranged over backwards. *)
Lemma range_order_is_irrelevant_witness :
  let m : gmap string string := {[ "tenant" := "acme"; "region" := "eu" ]} in
  let static : gmap string TagValue :=
    {[ "env" := VString "prod"; "canary" := VBool false ]} in
  let s := StartSpanFromContext background "pgx.query" [] in
  setTags s (reverse (map_to_list m)) = setTags s (map_to_list m)
  ∧ foldl applyOption emptyConfig ((λ kv, Tag kv.1 kv.2) <$> reverse (map_to_list static))
    = foldl applyOption emptyConfig ((λ kv, Tag kv.1 kv.2) <$> map_to_list static).
Proof.
  apply range_order_is_irrelevant; apply reverse_Permutation.
Defined.

(** X16 in the sample world: the service name, then the propagation mode. *)
Lemma options_apply_in_order_witness :
  let p : LooselyTracedPool (W:=sampleWorld) :=
    {| Pool := samplePool;
       pool_traceParams :=
         {| cfg := WithServiceName "orders" (sampleConfig DBMPropagationModeDisabled None);
            meta := ∅ |} |} in
  ∃ p',
    result (NewWithConfig (P:=samplePgxpool) background "host=db"
              ([WithServiceName "orders"] ++ [WithDBMPropagation DBMPropagationModeFull]) 0)
      = Return (Some p', None)
    ∧ WrappedPool p' = WrappedPool p
    ∧ cfg (pool_traceParams p')
      = WithDBMPropagation DBMPropagationModeFull (cfg (pool_traceParams p))
    ∧ cfg (pool_traceParams p)
      = foldl (λ c fn, fn c) (defaultConfig (Pgxpool:=samplePgxpool))
          [WithServiceName "orders"].
Proof.
  apply (options_apply_in_order (P:=samplePgxpool)). reflexivity.
Defined.

(** X17 in the sample world: a pool from [New], then [BeginTx]. *)
Lemma transactions_share_pool_params_witness :
  let opts := [WithServiceName "orders"; WithDBMPropagation DBMPropagationModeFull] in
  let tp := {| cfg := foldl (λ c fn, fn c) (sampleConfig DBMPropagationModeDisabled None) opts;
               meta := ∅ |} in
  let t : tracedTx (W:=sampleWorld) :=
    {| Tx := sampleTx (W:=sampleWorld) "INSERT 0 1" ["row"] "row" "stmt";
       tx_traceParams := tp |} in
  (None : option error) = None
  ∧ tx_traceParams t = tp
  ∧ metaTags (tx_traceParams t) = ∅.
Proof.
  intros opts tp t.
  apply (transactions_share_pool_params (P:=samplePgxpool) background "host=db" opts 0
           {| Pool := samplePool; pool_traceParams := tp |} inTrace tt 1 t None).
  - reflexivity.
  - reflexivity.
Defined.

(** X18 in the sample world: one facade traces everything, the other
    suppresses [Exec] and spans outside a trace. *)
Lemma tracing_parameters_leave_the_call_alone_witness :
  let tp1 := sampleParams DBMPropagationModeFull None in
  let tp2 := tx_traceParams (filteredTracedTx (Some {[ QueryTypeExec ]}) true) in
  let op := OpExec (sampleTracedTx DBMPropagationModeFull None) "SELECT 1" [] in
  callsOf (trace (runOp (withParams tp1 op) background 0))
    = callsOf (trace (runOp (withParams tp2 op) background 0))
  ∧ returnsOf (trace (runOp (withParams tp1 op) background 0))
    = returnsOf (trace (runOp (withParams tp2 op) background 0))
  ∧ final (runOp (withParams tp1 op) background 0)
    = final (runOp (withParams tp2 op) background 0).
Proof.
  apply (tracing_parameters_leave_the_call_alone (W:=sampleWorld)); reflexivity.
Defined.

(** The two facades of the run above differ in their spans. *)
Example suppression_shows_in_spans_only :
  let tp1 := sampleParams DBMPropagationModeFull None in
  let tp2 := tx_traceParams (filteredTracedTx (Some {[ QueryTypeExec ]}) true) in
  let op := OpExec (sampleTracedTx DBMPropagationModeFull None) "SELECT 1" [] in
  length (spansOf (trace (runOp (withParams tp1 op) background 0))) = 1%nat
  ∧ spansOf (trace (runOp (withParams tp2 op) background 0)) = [].
Proof. split; vm_compute; reflexivity. Qed.

(** [New] in the sample world: an empty connection string, a pool that is
    down, and a pool that comes up. *)
Example New_runs :
  result (New (P:=samplePgxpool) background EmptyString [] 0)
    = Return (None, Some (errorString "cannot parse connection string"))
  ∧ final (New (P:=samplePgxpool) background EmptyString [] 0) = 0
  ∧ result (New (P:=samplePgxpool) background "down" [] 0)
    = Return (None, Some (errorString "connection refused"))
  ∧ result (New (P:=samplePgxpool) background "host=db" [] 0)
    = Return (Some {| Pool := samplePool;
                      pool_traceParams :=
                        {| cfg := sampleConfig DBMPropagationModeDisabled None;
                           meta := ∅ |} |}, None).
Proof. repeat split; vm_compute; reflexivity. Qed.

(** With the execution tracer off no task shows and the call gets the
    caller's context. *)
Example quiet_run :
  let t : tracedTx (W:=quietWorld) :=
    {| Tx := sampleTx (W:=quietWorld) "INSERT 0 1" ["row"] "row" "stmt";
       tx_traceParams := sampleParams DBMPropagationModeDisabled None |} in
  eventName <$> trace (runOp (OpExec t "SELECT 1" []) inTrace 0)
    = ["inject"; "call"; "return"; "span"]
  ∧ callsOf (trace (runOp (OpExec t "SELECT 1" []) inTrace 0))
    = [CallExec (W:=quietWorld) inTrace "SELECT 1" []].
Proof. split; vm_compute; reflexivity. Qed.
